(** * OTTL built-in functions [convertGaugeToSum] and [DeleteKey]

    A shallow embedding of two functions of the transformation language:

    - [convertGaugeToSum]
      (processor/transformprocessor/internal/metrics), which rewrites
      the metric of a data point context from a Gauge into a Sum;
    - [DeleteKey] (pkg/ottl/ottlfuncs/func_delete_key.go), which removes
      a key from the map its target resolves to.

    Both functions act on pdata documents through handles: a
    [pmetric.Metric], a [pmetric.Sum] or a [pcommon.Map] is a pointer
    to storage owned by the pipeline, and a method call on the handle
    reads or writes that storage.  The embedding therefore keeps an
    explicit store of cells and passes it through every call, so that
    two handles to the same cell see each other's writes. *)

From Stdlib Require Import ZArith.
From stdpp Require Import base option list strings gmap.

Local Open Scope string_scope.
Local Open Scope list_scope.

Set Warnings "-register-all".

(** ** Store *)

(** A location is the address held by a pdata handle. *)
Abbreviation loc := nat (only parsing).

(** The structures behind the pdata handles.  A data point is kept as
    a value, attributes included: the only operation on points used
    below copies them field by field. *)
Module otlp.

(** The content of a [pcommon.Value]; a double is kept as its 64 bit
    pattern. *)
Inductive AnyValue : Type :=
| ValueEmpty
| ValueStr (s : string)
| ValueInt (i : Z)
| ValueDouble (bits : Z)
| ValueBool (b : bool)
| ValueBytes (bs : list Byte.byte)
| ValueMap (kvs : gmap string AnyValue)
| ValueSlice (vs : list AnyValue).

Inductive NumberValue : Type :=
| NumberEmpty
| AsInt (i : Z)
| AsDouble (bits : Z).

Record Exemplar : Type := {
  FilteredAttributes : gmap string AnyValue;
  ExemplarTimeUnixNano : Z;
  ExemplarValue : NumberValue;
  SpanId : list Byte.byte;
  TraceId : list Byte.byte
}.

Record NumberDataPoint : Type := {
  Attributes : gmap string AnyValue;
  StartTimeUnixNano : Z;
  TimeUnixNano : Z;
  Value : NumberValue;
  Exemplars : list Exemplar;
  Flags : Z
}.

Inductive AggregationTemporality : Type :=
| AggregationTemporalityUnspecified
| AggregationTemporalityDelta
| AggregationTemporalityCumulative.

Record Gauge : Type := {
  GaugeDataPoints : list NumberDataPoint
}.

Record Sum : Type := {
  SumDataPoints : list NumberDataPoint;
  SumAggregationTemporality : AggregationTemporality;
  IsMonotonic : bool
}.

(** The [Data] oneof of a metric: which shape it has and where the
    shape's structure lives. *)
Inductive MetricData : Type :=
| Metric_None
| Metric_Gauge (g : loc)
| Metric_Sum (s : loc)
| Metric_Histogram (h : loc)
| Metric_ExponentialHistogram (h : loc)
| Metric_Summary (s : loc).

Record Metric : Type := {
  Name : string;
  Description : string;
  Unit : string;
  Data : MetricData
}.

(** The assignment [m.Data = d]. *)
Definition with_Data (m : Metric) (d : MetricData) : Metric :=
  {| Name := Name m;
     Description := Description m;
     Unit := Unit m;
     Data := d |}.

End otlp.

(** One cell of the store: a structure that some handle points to. *)
Inductive Obj : Type :=
| OMetric (m : otlp.Metric)
| OGauge (g : otlp.Gauge)
| OSum (s : otlp.Sum)
| OHistogram (t : otlp.AggregationTemporality) (counts : list Z)
| OExponentialHistogram (t : otlp.AggregationTemporality) (counts : list Z)
| OSummary (counts : list Z)
| OMap (kvs : gmap string otlp.AnyValue)
| OScope (name version : string) (attributes : loc)
| OResource (attributes : loc).

(** The store: cell [l] is the [l]-th element.  Cells are never freed
    (the garbage collector only reclaims what no handle reaches). *)
Abbreviation Heap := (list Obj) (only parsing).

(** ** Computations over the store

    A computation may read and write the store; [None] is a run-time
    panic (a nil or dangling handle). *)
Definition M (A : Type) : Type := Heap → option (A * Heap).

Definition ret {A : Type} (a : A) : M A := λ h, Some (a, h).

Definition bind {A B : Type} (c : M A) (k : A → M B) : M B :=
  λ h, match c h with
       | Some (a, h') => k a h'
       | None => None
       end.

Definition panic {A : Type} : M A := λ _, None.

Declare Scope heap_scope.
Delimit Scope heap_scope with heap.
Notation "'do' x <- c ; k" := (bind c (λ x, k))
  (at level 10, x name, c at level 100, k at level 200,
   format "'[v' 'do'  x  <-  c ; '/' k ']'") : heap_scope.
Notation "c ;; k" := (bind c (λ _, k))
  (at level 100, k at level 200, right associativity) : heap_scope.
Local Open Scope heap_scope.

Definition load (l : loc) : M Obj :=
  λ h, match h !! l with
       | Some o => Some (o, h)
       | None => None
       end.

Definition store (l : loc) (o : Obj) : M unit :=
  λ h, match h !! l with
       | Some _ => Some (tt, <[l:=o]> h)
       | None => None
       end.

Definition alloc (o : Obj) : M loc :=
  λ h, Some (length h, h ++ [o]).

(** ** Go values *)

(** A Go [error]. *)
Inductive error : Type :=
| Errorf (msg : string).

(** A value of type [interface{}], by dynamic type.  [Nil] is the nil
    interface, [IMap] a [pcommon.Map], [ISlice] a [pcommon.Slice],
    [IValue] a [pcommon.Value] and [IGoMap] a Go map of strings. *)
Inductive interface : Type :=
| Nil
| IBool (b : bool)
| IInt64 (i : Z)
| IFloat64 (bits : Z)
| IString (s : string)
| IBytes (bs : list Byte.byte)
| IMap (m : loc)
| ISlice (s : loc)
| IValue (v : otlp.AnyValue)
| IGoMap (kvs : list (string * string)).

(** What a Go function of result type [(interface{}, error)] returns. *)
Definition result : Type := interface * option error.

(** ** pdata handles

    pdata (go.opentelemetry.io/collector/pdata) is the library that owns
    the records.  The two functions use a few of its methods; each is
    given here by what it does to the store. *)

Module pcommon.

(** [pcommon.Map]: a handle to a map from string keys to values. *)
Abbreviation Map := loc (only parsing).

Definition orig (m : Map) : M (gmap string otlp.AnyValue) :=
  do o <- load m;
  match o with
  | OMap kvs => ret kvs
  | _ => panic
  end.

(** Modelled from the spec: [Map.Remove] belongs to pdata, which is not
    among the sources.  It removes the key from the map the handle
    points to, and reports whether the key was present. *)
Definition Remove (m : Map) (key : string) : M bool :=
  do kvs <- orig m;
  match kvs !! key with
  | Some _ => store m (OMap (delete key kvs)) ;; ret true
  | None => ret false
  end.

End pcommon.

Module pmetric.

Inductive MetricType : Type :=
| MetricTypeEmpty
| MetricTypeGauge
| MetricTypeSum
| MetricTypeHistogram
| MetricTypeExponentialHistogram
| MetricTypeSummary.

Global Instance MetricType_eq_dec : EqDecision MetricType.
Proof. solve_decision. Defined.

(** [pmetric.AggregationTemporality] and its values. *)
Abbreviation AggregationTemporality :=
  otlp.AggregationTemporality (only parsing).
Abbreviation AggregationTemporalityUnspecified :=
  otlp.AggregationTemporalityUnspecified (only parsing).
Abbreviation AggregationTemporalityDelta :=
  otlp.AggregationTemporalityDelta (only parsing).
Abbreviation AggregationTemporalityCumulative :=
  otlp.AggregationTemporalityCumulative (only parsing).

(** [pmetric.Metric]: a pointer to the metric's structure. *)
Abbreviation Metric := loc (only parsing).

(** [pmetric.Gauge] and [pmetric.Sum]: a pointer to the structure of
    the shape; [None] is the zero handle, which the accessors return
    for a metric of another shape. *)
Abbreviation Gauge := (option loc) (only parsing).
Abbreviation Sum := (option loc) (only parsing).

(** [pmetric.NumberDataPointSlice]: a pointer to the [DataPoints]
    field of a Gauge or Sum structure, given by the location of that
    structure. *)
Abbreviation NumberDataPointSlice := loc (only parsing).

Definition orig (ms : Metric) : M otlp.Metric :=
  do o <- load ms;
  match o with
  | OMetric m => ret m
  | _ => panic
  end.

Definition Type_ (ms : Metric) : M MetricType :=
  do m <- orig ms;
  ret match otlp.Data m with
      | otlp.Metric_None => MetricTypeEmpty
      | otlp.Metric_Gauge _ => MetricTypeGauge
      | otlp.Metric_Sum _ => MetricTypeSum
      | otlp.Metric_Histogram _ => MetricTypeHistogram
      | otlp.Metric_ExponentialHistogram _ =>
          MetricTypeExponentialHistogram
      | otlp.Metric_Summary _ => MetricTypeSummary
      end.

Definition Gauge_ (ms : Metric) : M Gauge :=
  do m <- orig ms;
  ret match otlp.Data m with
      | otlp.Metric_Gauge g => Some g
      | _ => None
      end.

Definition Sum_ (ms : Metric) : M Sum :=
  do m <- orig ms;
  ret match otlp.Data m with
      | otlp.Metric_Sum s => Some s
      | _ => None
      end.

(** Modelled from the spec: [Metric.SetEmptySum] belongs to pdata, which
    is not among the sources.  It changes the shape of the metric to
    an empty Sum ("Setting the data type removed all the data points",
    as the caller notes): a new, empty Sum structure becomes the
    metric's data.  The structure that was the data before is detached
    from the metric, not written. *)
Definition SetEmptySum (ms : Metric) : M Sum :=
  do m <- orig ms;
  do val <- alloc (OSum {| otlp.SumDataPoints := [];
                           otlp.SumAggregationTemporality :=
                             otlp.AggregationTemporalityUnspecified;
                           otlp.IsMonotonic := false |});
  store ms (OMetric (otlp.with_Data m (otlp.Metric_Sum val))) ;;
  ret (Some val).

Definition sum_orig (s : Sum) : M (loc * otlp.Sum) :=
  match s with
  | Some l =>
      do o <- load l;
      match o with
      | OSum r => ret (l, r)
      | _ => panic
      end
  | None => panic
  end.

Definition SetAggregationTemporality (s : Sum)
    (v : AggregationTemporality) : M unit :=
  do lr <- sum_orig s;
  store (fst lr)
    (OSum {| otlp.SumDataPoints := otlp.SumDataPoints (snd lr);
             otlp.SumAggregationTemporality := v;
             otlp.IsMonotonic := otlp.IsMonotonic (snd lr) |}).

Definition SetIsMonotonic (s : Sum) (v : bool) : M unit :=
  do lr <- sum_orig s;
  store (fst lr)
    (OSum {| otlp.SumDataPoints := otlp.SumDataPoints (snd lr);
             otlp.SumAggregationTemporality :=
               otlp.SumAggregationTemporality (snd lr);
             otlp.IsMonotonic := v |}).

Definition Gauge_DataPoints (g : Gauge) : M NumberDataPointSlice :=
  match g with
  | Some l =>
      do o <- load l;
      match o with
      | OGauge _ => ret l
      | _ => panic
      end
  | None => panic
  end.

Definition Sum_DataPoints (s : Sum) : M NumberDataPointSlice :=
  do lr <- sum_orig s; ret (fst lr).

(** The points a slice handle points to, now. *)
Definition points (es : NumberDataPointSlice)
  : M (list otlp.NumberDataPoint) :=
  do o <- load es;
  match o with
  | OGauge g => ret (otlp.GaugeDataPoints g)
  | OSum s => ret (otlp.SumDataPoints s)
  | _ => panic
  end.

Definition set_points (es : NumberDataPointSlice)
    (dps : list otlp.NumberDataPoint) : M unit :=
  do o <- load es;
  match o with
  | OGauge _ => store es (OGauge {| otlp.GaugeDataPoints := dps |})
  | OSum s =>
      store es
        (OSum {| otlp.SumDataPoints := dps;
                 otlp.SumAggregationTemporality :=
                   otlp.SumAggregationTemporality s;
                 otlp.IsMonotonic := otlp.IsMonotonic s |})
  | _ => panic
  end.

(** Modelled from the spec: [NumberDataPointSlice.CopyTo] belongs to
    pdata, which is not among the sources.  It populates the
    destination from the source: every point of the source, as it is
    when the call is made, is copied in order, and the former content
    of the destination is overridden. *)
Definition CopyTo (es dest : NumberDataPointSlice) : M unit :=
  do dps <- points es;
  set_points dest dps.

End pmetric.

(** ** The expression layer (pkg/ottl) *)

Module ottl.

(** Modelled from the spec: [ottl.ExprFunc[K]] is declared in pkg/ottl,
    which is not among the sources.  A bound function is invoked on a
    context and returns a value and an error. *)
Definition ExprFunc (K : Type) : Type := K → M result.

(** Modelled from the spec: [ottl.Getter[K]] is declared in pkg/ottl,
    which is not among the sources.  It is an interface with the one
    method [Get], which resolves a path, a literal or a nested function
    call on a context and returns a value and an error.  The spec calls
    it a pure capability; nothing below relies on that, and [Get] is a
    computation over the store like any other. *)
Record Getter (K : Type) : Type := {
  Get : K → M result
}.
Arguments Get {K} _ _.

End ottl.

Module ottldatapoints.

(** Modelled from the spec: [ottldatapoints.TransformContext] is
    declared in pkg/ottl/contexts, which is not among the sources.
    Following the spec's context adapters, a context holds borrowed
    references to the record itself (a data point, given by the slice
    it sits in and its index), to the parent metric of the data point,
    to the instrumentation scope and to the enclosing resource. *)
Record TransformContext : Type := {
  dataPoint : pmetric.NumberDataPointSlice * nat;
  metric : pmetric.Metric;
  instrumentationScope : loc;
  resource : loc
}.

Definition GetMetric (ctx : TransformContext) : pmetric.Metric :=
  metric ctx.

End ottldatapoints.

(** ** convertGaugeToSum

    The literal is checked first; the function returned for "delta" or
    "cumulative" acts on the metric of the context.  On a Gauge it
    takes the handle [dps] to the gauge's points, changes the metric
    into an empty Sum, sets temporality and monotonicity, and copies
    the points of [dps] into the Sum. *)

Definition convertGaugeToSum (stringAggTemp : string) (monotonic : bool)
  : option (ottl.ExprFunc ottldatapoints.TransformContext) * option error :=
  match
    (if String.eqb stringAggTemp "delta"
     then Some pmetric.AggregationTemporalityDelta
     else if String.eqb stringAggTemp "cumulative"
     then Some pmetric.AggregationTemporalityCumulative
     else None)
  with
  | None =>
      (None,
       Some (Errorf ("unknown aggregation temporality: " ++ stringAggTemp)))
  | Some aggTemp =>
      (Some (λ ctx,
         let metric := ottldatapoints.GetMetric ctx in
         do ty <- pmetric.Type_ metric;
         if decide (ty ≠ pmetric.MetricTypeGauge)
         then ret (Nil, None)
         else
           do g <- pmetric.Gauge_ metric;
           do dps <- pmetric.Gauge_DataPoints g;
           do s <- pmetric.SetEmptySum metric;
           pmetric.SetAggregationTemporality s aggTemp ;;
           do s <- pmetric.Sum_ metric;
           pmetric.SetIsMonotonic s monotonic ;;
           do s <- pmetric.Sum_ metric;
           do dest <- pmetric.Sum_DataPoints s;
           pmetric.CopyTo dps dest ;;
           ret (Nil, None)),
       None)
  end.

(** ** DeleteKey

    Binding always succeeds.  The function returned resolves the
    target; an error is passed on, a nil value is skipped, and only a
    [pcommon.Map] has the key removed. *)

Definition DeleteKey {K : Type} (target : ottl.Getter K) (key : string)
  : option (ottl.ExprFunc K) * option error :=
  (Some (λ ctx,
     do r <- ottl.Get target ctx;
     let '(val, err) := r in
     match err with
     | Some e => ret (Nil, Some e)
     | None =>
         match val with
         | Nil => ret (Nil, None)
         | IMap attrs => pcommon.Remove attrs key ;; ret (Nil, None)
         | _ => ret (Nil, None)
         end
     end),
   None).

(** ** Notions used in the statements *)

(** The store in which the metric in cell [ms] has become a Sum: the
    metric points to a new cell, allocated at the end of the store,
    that holds the points [dps]; nothing else differs from [h]. *)
Definition sum_store (h : Heap) (ms : pmetric.Metric) (m : otlp.Metric)
    (dps : list otlp.NumberDataPoint) (t : otlp.AggregationTemporality)
    (monotonic : bool) : Heap :=
  <[ms := OMetric (otlp.with_Data m (otlp.Metric_Sum (length h)))]> h
  ++ [OSum {| otlp.SumDataPoints := dps;
              otlp.SumAggregationTemporality := t;
              otlp.IsMonotonic := monotonic |}].

(** The temporality a literal stands for. *)
Definition temporality_literal (s : string)
    (aggTemp : pmetric.AggregationTemporality) : Prop :=
  (s = "delta" ∧ aggTemp = pmetric.AggregationTemporalityDelta) ∨
  (s = "cumulative" ∧ aggTemp = pmetric.AggregationTemporalityCumulative).

(** ** Examples *)

Module Examples.

Definition point (v : Z) : otlp.NumberDataPoint :=
  {| otlp.Attributes := {[ "host" := otlp.ValueStr "a" ]};
     otlp.StartTimeUnixNano := 10;
     otlp.TimeUnixNano := 20;
     otlp.Value := otlp.AsInt v;
     otlp.Exemplars := [];
     otlp.Flags := 0 |}.

Definition gauge_metric : otlp.Metric :=
  {| otlp.Name := "system.cpu.load";
     otlp.Description := "load";
     otlp.Unit := "1";
     otlp.Data := otlp.Metric_Gauge 1 |}.

Definition attrs : gmap string otlp.AnyValue :=
  <["k" := otlp.ValueStr "v"]>
    (<["a" := otlp.ValueInt 1]> {[ "b" := otlp.ValueBool true ]}).

Definition resource_attrs : gmap string otlp.AnyValue :=
  {[ "service.name" := otlp.ValueStr "svc" ]}.

(** Cells 0-1: a gauge metric with three points; 2: a map;
    3-4: resource and its attributes; 5-6: scope and its attributes;
    7-8: a histogram metric. *)
Definition heap0 : Heap :=
  [ OMetric gauge_metric;
    OGauge {| otlp.GaugeDataPoints := [point 1; point 2; point 3] |};
    OMap attrs;
    OResource 4;
    OMap resource_attrs;
    OScope "scope" "v1" 6;
    OMap ∅;
    OMetric {| otlp.Name := "latency"; otlp.Description := "";
               otlp.Unit := "ms"; otlp.Data := otlp.Metric_Histogram 8 |};
    OHistogram otlp.AggregationTemporalityDelta [1%Z; 2%Z] ].

Definition ctx0 : ottldatapoints.TransformContext :=
  {| ottldatapoints.dataPoint := (1, 0);
     ottldatapoints.metric := 0;
     ottldatapoints.instrumentationScope := 5;
     ottldatapoints.resource := 3 |}.

Definition ctx1 : ottldatapoints.TransformContext :=
  {| ottldatapoints.dataPoint := (8, 0);
     ottldatapoints.metric := 7;
     ottldatapoints.instrumentationScope := 5;
     ottldatapoints.resource := 3 |}.

(** A getter for the map in cell [m]. *)
Definition map_getter (m : loc) : ottl.Getter unit :=
  {| ottl.Get := λ _, ret (IMap m, None) |}.

Definition const_getter (r : result) : ottl.Getter unit :=
  {| ottl.Get := λ _, ret r |}.

(** A getter that fails. *)
Definition failing_getter : ottl.Getter unit :=
  const_getter (Nil, Some (Errorf "path not found")).

(** A getter for a string. *)
Definition string_getter : ottl.Getter unit :=
  const_getter (IString "v", None).

(** A getter for nothing. *)
Definition nil_getter : ottl.Getter unit :=
  const_getter (Nil, None).

(** The function of a successful binding. *)
Definition built {K : Type}
    (b : option (ottl.ExprFunc K) * option error) : ottl.ExprFunc K :=
  match fst b with
  | Some f => f
  | None => λ _, panic
  end.

Definition to_cumulative : ottl.ExprFunc ottldatapoints.TransformContext :=
  built (convertGaugeToSum "cumulative" true).

Definition to_delta : ottl.ExprFunc ottldatapoints.TransformContext :=
  built (convertGaugeToSum "delta" false).

Definition delete_k (target : ottl.Getter unit) : ottl.ExprFunc unit :=
  built (DeleteKey target "k").

End Examples.

(** Further examples: a store with two gauge metrics, and targets that
    resolve a path of the context. *)
Module Paths.

(** The target [resource.attributes]: the attributes of the resource the
    context refers to. *)
Definition resource_attributes
  : ottl.Getter ottldatapoints.TransformContext :=
  {| ottl.Get := λ ctx,
       do o <- load (ottldatapoints.resource ctx);
       match o with
       | OResource attributes => ret (IMap attributes, None)
       | _ => ret (Nil, Some (Errorf "resource not found"))
       end |}.

Definition delete_service_name
  : ottl.ExprFunc ottldatapoints.TransformContext :=
  Examples.built (DeleteKey resource_attributes "service.name").

Definition delete_a (target : ottl.Getter unit) : ottl.ExprFunc unit :=
  Examples.built (DeleteKey target "a").

(** Cells 0-1 and 2-3: two gauge metrics; 4-5: the resource. *)
Definition heap1 : Heap :=
  [ OMetric Examples.gauge_metric;
    OGauge {| otlp.GaugeDataPoints :=
                [Examples.point 1; Examples.point 2] |};
    OMetric {| otlp.Name := "system.memory.usage";
               otlp.Description := "memory";
               otlp.Unit := "By";
               otlp.Data := otlp.Metric_Gauge 3 |};
    OGauge {| otlp.GaugeDataPoints := [Examples.point 7] |};
    OResource 5;
    OMap Examples.resource_attrs ].

Definition ctxA : ottldatapoints.TransformContext :=
  {| ottldatapoints.dataPoint := (1, 0);
     ottldatapoints.metric := 0;
     ottldatapoints.instrumentationScope := 4;
     ottldatapoints.resource := 4 |}.

Definition ctxB : ottldatapoints.TransformContext :=
  {| ottldatapoints.dataPoint := (3, 0);
     ottldatapoints.metric := 2;
     ottldatapoints.instrumentationScope := 4;
     ottldatapoints.resource := 4 |}.

Definition metricB : otlp.Metric :=
  {| otlp.Name := "system.memory.usage";
     otlp.Description := "memory";
     otlp.Unit := "By";
     otlp.Data := otlp.Metric_Gauge 3 |}.

(** The context of the second data point of the gauge of
    [Examples.heap0]. *)
Definition ctx0_second : ottldatapoints.TransformContext :=
  {| ottldatapoints.dataPoint := (1, 1);
     ottldatapoints.metric := 0;
     ottldatapoints.instrumentationScope := 5;
     ottldatapoints.resource := 3 |}.

End Paths.

(** ** Evaluation on the example store *)

Example to_cumulative_on_gauge :
  Examples.to_cumulative Examples.ctx0 Examples.heap0 =
    Some ((Nil, None),
          <[0 := OMetric {| otlp.Name := "system.cpu.load";
                            otlp.Description := "load";
                            otlp.Unit := "1";
                            otlp.Data := otlp.Metric_Sum 9 |}]>
            Examples.heap0
          ++ [OSum {| otlp.SumDataPoints :=
                        [Examples.point 1; Examples.point 2;
                         Examples.point 3];
                      otlp.SumAggregationTemporality :=
                        pmetric.AggregationTemporalityCumulative;
                      otlp.IsMonotonic := true |}]).
Proof. reflexivity. Qed.

Example to_cumulative_on_histogram :
  Examples.to_cumulative Examples.ctx1 Examples.heap0 =
    Some ((Nil, None), Examples.heap0).
Proof. reflexivity. Qed.

Example unknown_temporality :
  convertGaugeToSum "gauge" true =
    (None, Some (Errorf "unknown aggregation temporality: gauge")).
Proof. reflexivity. Qed.

Example delete_k_on_map :
  Examples.delete_k (Examples.map_getter 2) tt Examples.heap0 =
    Some ((Nil, None),
          <[2 := OMap (<["a" := otlp.ValueInt 1]>
                         {[ "b" := otlp.ValueBool true ]})]>
            Examples.heap0).
Proof. vm_compute. reflexivity. Qed.

Example delete_k_on_failure :
  Examples.delete_k Examples.failing_getter tt Examples.heap0 =
    Some ((Nil, Some (Errorf "path not found")), Examples.heap0).
Proof. reflexivity. Qed.

(** ** Reasoning about computations *)

Section Monad.
Context {A B : Type}.

Lemma bind_Some (c : M A) (k : A → M B) (h h' : Heap) (a : A) :
  c h = Some (a, h') → bind c k h = k a h'.
Proof. intros Hc. unfold bind. by rewrite Hc. Qed.
End Monad.

Lemma load_Some (h : Heap) (l : loc) (o : Obj) :
  h !! l = Some o → load l h = Some (o, h).
Proof. intros Hl. unfold load. by rewrite Hl. Qed.

Lemma store_Some (h : Heap) (l : loc) (o o' : Obj) :
  h !! l = Some o' → store l o h = Some (tt, <[l:=o]> h).
Proof. intros Hl. unfold store. by rewrite Hl. Qed.

(** Allocation extends the store at its end and keeps what was there. *)
Lemma lookup_alloc_old (h : Heap) (o : Obj) (l : loc) (x : Obj) :
  h !! l = Some x → (h ++ [o]) !! l = Some x.
Proof. intros Hl. by apply lookup_app_l_Some. Qed.

Lemma lookup_alloc_new (h : Heap) (o : Obj) (l : loc) :
  l = length h → (h ++ [o]) !! l = Some o.
Proof. intros ->. by apply list_lookup_middle. Qed.

Lemma lookup_lt_length (h : Heap) (l : loc) (x : Obj) :
  h !! l = Some x → l ≠ length h.
Proof. intros Hl%lookup_lt_Some. lia. Qed.

Lemma insert_alloc (h : Heap) (l : loc) (o x : Obj) :
  l < length h → <[l:=o]> (h ++ [x]) = <[l:=o]> h ++ [x].
Proof. intros Hl. by rewrite insert_app_l. Qed.

Lemma insert_new (h : Heap) (l : loc) (o x : Obj) :
  l = length h → <[l:=o]> (h ++ [x]) = h ++ [o].
Proof.
  intros ->. rewrite insert_app_r_alt; [|lia].
  by rewrite Nat.sub_diag.
Qed.

(** ** The pdata operations on a well-typed store *)

Section Pdata.
Variable h : Heap.

Lemma orig_spec (ms : pmetric.Metric) (m : otlp.Metric) :
  h !! ms = Some (OMetric m) → pmetric.orig ms h = Some (m, h).
Proof.
  intros Hms. unfold pmetric.orig.
  by rewrite (bind_Some _ _ _ _ _ (load_Some _ _ _ Hms)).
Qed.

Lemma sum_orig_spec (l : loc) (r : otlp.Sum) :
  h !! l = Some (OSum r) → pmetric.sum_orig (Some l) h = Some ((l, r), h).
Proof.
  intros Hl. unfold pmetric.sum_orig.
  by rewrite (bind_Some _ _ _ _ _ (load_Some _ _ _ Hl)).
Qed.

Lemma Type_spec (ms : pmetric.Metric) (m : otlp.Metric) :
  h !! ms = Some (OMetric m) →
  ∃ ty, pmetric.Type_ ms h = Some (ty, h) ∧
        (ty = pmetric.MetricTypeGauge ↔
         ∃ g, otlp.Data m = otlp.Metric_Gauge g).
Proof.
  intros Hms. unfold pmetric.Type_.
  rewrite (bind_Some _ _ _ _ _ (orig_spec _ _ Hms)).
  eexists; split; [reflexivity|].
  destruct (otlp.Data m);
    (split; [intros Hty; try discriminate Hty; eauto
            |intros [g' Hg']; try discriminate Hg'; reflexivity]).
Qed.

Lemma Gauge_spec (ms : pmetric.Metric) (m : otlp.Metric) (g : loc) :
  h !! ms = Some (OMetric m) → otlp.Data m = otlp.Metric_Gauge g →
  pmetric.Gauge_ ms h = Some (Some g, h).
Proof.
  intros Hms Hd. unfold pmetric.Gauge_.
  rewrite (bind_Some _ _ _ _ _ (orig_spec _ _ Hms)). by rewrite Hd.
Qed.

Lemma Sum_spec (ms : pmetric.Metric) (m : otlp.Metric) (s : loc) :
  h !! ms = Some (OMetric m) → otlp.Data m = otlp.Metric_Sum s →
  pmetric.Sum_ ms h = Some (Some s, h).
Proof.
  intros Hms Hd. unfold pmetric.Sum_.
  rewrite (bind_Some _ _ _ _ _ (orig_spec _ _ Hms)). by rewrite Hd.
Qed.

Lemma Gauge_DataPoints_spec (g : loc) (r : otlp.Gauge) :
  h !! g = Some (OGauge r) →
  pmetric.Gauge_DataPoints (Some g) h = Some (g, h).
Proof.
  intros Hg. unfold pmetric.Gauge_DataPoints.
  by rewrite (bind_Some _ _ _ _ _ (load_Some _ _ _ Hg)).
Qed.

Lemma Sum_DataPoints_spec (l : loc) (r : otlp.Sum) :
  h !! l = Some (OSum r) →
  pmetric.Sum_DataPoints (Some l) h = Some (l, h).
Proof.
  intros Hl. unfold pmetric.Sum_DataPoints.
  by rewrite (bind_Some _ _ _ _ _ (sum_orig_spec _ _ Hl)).
Qed.

Lemma SetEmptySum_spec (ms : pmetric.Metric) (m : otlp.Metric) :
  h !! ms = Some (OMetric m) →
  pmetric.SetEmptySum ms h =
    Some (Some (length h),
          <[ms := OMetric (otlp.with_Data m (otlp.Metric_Sum (length h)))]>
            (h ++ [OSum {| otlp.SumDataPoints := [];
                           otlp.SumAggregationTemporality :=
                             otlp.AggregationTemporalityUnspecified;
                           otlp.IsMonotonic := false |}])).
Proof.
  intros Hms. unfold pmetric.SetEmptySum.
  rewrite (bind_Some _ _ _ _ _ (orig_spec _ _ Hms)).
  unfold bind at 1, alloc.
  erewrite bind_Some; [reflexivity|].
  eapply store_Some. by apply lookup_alloc_old.
Qed.

Lemma SetAggregationTemporality_spec (l : loc) (r : otlp.Sum)
    (v : pmetric.AggregationTemporality) :
  h !! l = Some (OSum r) →
  pmetric.SetAggregationTemporality (Some l) v h =
    Some (tt, <[l := OSum {| otlp.SumDataPoints := otlp.SumDataPoints r;
                             otlp.SumAggregationTemporality := v;
                             otlp.IsMonotonic := otlp.IsMonotonic r |}]> h).
Proof.
  intros Hl. unfold pmetric.SetAggregationTemporality.
  rewrite (bind_Some _ _ _ _ _ (sum_orig_spec _ _ Hl)).
  by eapply store_Some.
Qed.

Lemma SetIsMonotonic_spec (l : loc) (r : otlp.Sum) (v : bool) :
  h !! l = Some (OSum r) →
  pmetric.SetIsMonotonic (Some l) v h =
    Some (tt, <[l := OSum {| otlp.SumDataPoints := otlp.SumDataPoints r;
                             otlp.SumAggregationTemporality :=
                               otlp.SumAggregationTemporality r;
                             otlp.IsMonotonic := v |}]> h).
Proof.
  intros Hl. unfold pmetric.SetIsMonotonic.
  rewrite (bind_Some _ _ _ _ _ (sum_orig_spec _ _ Hl)).
  by eapply store_Some.
Qed.

Lemma CopyTo_gauge_sum_spec (es dest : loc) (g : otlp.Gauge) (r : otlp.Sum) :
  h !! es = Some (OGauge g) → h !! dest = Some (OSum r) →
  pmetric.CopyTo es dest h =
    Some (tt, <[dest := OSum {| otlp.SumDataPoints := otlp.GaugeDataPoints g;
                                otlp.SumAggregationTemporality :=
                                  otlp.SumAggregationTemporality r;
                                otlp.IsMonotonic := otlp.IsMonotonic r |}]> h).
Proof.
  intros Hes Hdest. unfold pmetric.CopyTo, pmetric.points.
  rewrite (bind_Some _ _ h h (otlp.GaugeDataPoints g));
    [|by rewrite (bind_Some _ _ _ _ _ (load_Some _ _ _ Hes))].
  unfold pmetric.set_points.
  rewrite (bind_Some _ _ _ _ _ (load_Some _ _ _ Hdest)).
  by eapply store_Some.
Qed.
End Pdata.

(** ** The function built by [convertGaugeToSum] *)

Lemma built_gauge (stringAggTemp : string) (monotonic : bool)
    (f : ottl.ExprFunc ottldatapoints.TransformContext) :
  convertGaugeToSum stringAggTemp monotonic = (Some f, None) →
  ∃ aggTemp, temporality_literal stringAggTemp aggTemp ∧
    ∀ ctx h m g r,
      h !! ottldatapoints.metric ctx = Some (OMetric m) →
      otlp.Data m = otlp.Metric_Gauge g →
      h !! g = Some (OGauge r) →
      f ctx h =
        Some ((Nil, None),
              sum_store h (ottldatapoints.metric ctx) m
                (otlp.GaugeDataPoints r) aggTemp monotonic).
Proof.
  unfold convertGaugeToSum. intros Hf.
  set (lit := if String.eqb stringAggTemp "delta" then _ else _) in Hf.
  assert (∃ aggTemp, lit = Some aggTemp ∧
                     temporality_literal stringAggTemp aggTemp)
    as (aggTemp & Hlit & Htemp).
  { subst lit. unfold temporality_literal.
    destruct (String.eqb_spec stringAggTemp "delta") as [->|_];
      [by eauto 6|].
    destruct (String.eqb_spec stringAggTemp "cumulative") as [->|_];
      [by eauto 6|].
    discriminate Hf. }
  rewrite Hlit in Hf. injection Hf as <-.
  exists aggTemp. split; [done|].
  intros ctx h m g r Hms Hd Hg. cbn [ottldatapoints.GetMetric].
  set (ms := ottldatapoints.metric ctx) in *.
  destruct (Type_spec h ms m Hms) as (ty & Hty & Hgauge).
  rewrite (bind_Some _ _ _ _ _ Hty).
  rewrite (proj2 Hgauge (ex_intro _ g Hd)).
  rewrite decide_False by (by intros Hne; apply Hne).
  rewrite (bind_Some _ _ _ _ _ (Gauge_spec h ms m g Hms Hd)).
  rewrite (bind_Some _ _ _ _ _ (Gauge_DataPoints_spec h g r Hg)).
  rewrite (bind_Some _ _ _ _ _ (SetEmptySum_spec h ms m Hms)).
  pose proof (lookup_lt_Some _ _ _ Hms) as Hms_lt.
  pose proof (lookup_lt_Some _ _ _ Hg) as Hg_lt.
  rewrite insert_alloc by done.
  set (m' := otlp.with_Data m (otlp.Metric_Sum (length h))).
  set (h1 := <[ms:=OMetric m']> h).
  assert (length h1 = length h) as Hlen by (subst h1; apply length_insert).
  assert (h1 !! ms = Some (OMetric m')) as Hms1
    by (subst h1; by apply list_lookup_insert_eq).
  assert (h1 !! g = Some (OGauge r)) as Hg1.
  { subst h1. rewrite list_lookup_insert_ne; [done|].
    intros Heq. rewrite <- Heq, Hms in Hg. discriminate Hg. }
  erewrite bind_Some;
    [|by apply SetAggregationTemporality_spec, lookup_alloc_new].
  rewrite insert_new by done. cbn [otlp.SumDataPoints otlp.IsMonotonic].
  erewrite bind_Some;
    [|eapply Sum_spec; [by apply lookup_alloc_old|reflexivity]].
  erewrite bind_Some; [|by apply SetIsMonotonic_spec, lookup_alloc_new].
  rewrite insert_new by done.
  cbn [otlp.SumDataPoints otlp.SumAggregationTemporality].
  erewrite bind_Some;
    [|eapply Sum_spec; [by apply lookup_alloc_old|reflexivity]].
  erewrite bind_Some; [|by eapply Sum_DataPoints_spec, lookup_alloc_new].
  erewrite bind_Some;
    [|eapply CopyTo_gauge_sum_spec;
      [by apply lookup_alloc_old|by apply lookup_alloc_new]].
  rewrite insert_new by done. reflexivity.
Qed.

Lemma built_other (stringAggTemp : string) (monotonic : bool)
    (f : ottl.ExprFunc ottldatapoints.TransformContext) :
  convertGaugeToSum stringAggTemp monotonic = (Some f, None) →
  ∀ ctx h ty,
    pmetric.Type_ (ottldatapoints.metric ctx) h = Some (ty, h) →
    ty ≠ pmetric.MetricTypeGauge →
    f ctx h = Some ((Nil, None), h).
Proof.
  unfold convertGaugeToSum. intros Hf ctx h ty Hty Hne.
  destruct (if String.eqb stringAggTemp "delta" then _ else _)
    as [aggTemp|]; [|discriminate Hf].
  injection Hf as <-. cbn [ottldatapoints.GetMetric].
  rewrite (bind_Some _ _ _ _ _ Hty).
  by rewrite decide_True.
Qed.

Lemma Type_sum_store (h : Heap) (ms : pmetric.Metric) (m : otlp.Metric)
    (dps : list otlp.NumberDataPoint) (t : otlp.AggregationTemporality)
    (monotonic : bool) :
  h !! ms = Some (OMetric m) →
  pmetric.Type_ ms (sum_store h ms m dps t monotonic) =
    Some (pmetric.MetricTypeSum, sum_store h ms m dps t monotonic).
Proof.
  intros Hms. unfold pmetric.Type_.
  rewrite (bind_Some _ _ _ (sum_store h ms m dps t monotonic)
             (otlp.with_Data m (otlp.Metric_Sum (length h)))); [done|].
  apply orig_spec. unfold sum_store.
  apply lookup_alloc_old, list_lookup_insert_eq.
  by eapply lookup_lt_Some.
Qed.

(** What [sum_store] keeps: every cell of [h] but the metric's. *)
Lemma sum_store_frame (h : Heap) (ms : pmetric.Metric) (m : otlp.Metric)
    (dps : list otlp.NumberDataPoint) (t : otlp.AggregationTemporality)
    (monotonic : bool) (l : loc) (o : Obj) :
  l ≠ ms → h !! l = Some o →
  sum_store h ms m dps t monotonic !! l = Some o.
Proof.
  intros Hne Hl. unfold sum_store.
  apply lookup_alloc_old. by rewrite list_lookup_insert_ne.
Qed.

Lemma sum_store_metric (h : Heap) (ms : pmetric.Metric) (m : otlp.Metric)
    (dps : list otlp.NumberDataPoint) (t : otlp.AggregationTemporality)
    (monotonic : bool) :
  h !! ms = Some (OMetric m) →
  sum_store h ms m dps t monotonic !! ms =
    Some (OMetric (otlp.with_Data m (otlp.Metric_Sum (length h)))).
Proof.
  intros Hms. unfold sum_store.
  apply lookup_alloc_old, list_lookup_insert_eq.
  by eapply lookup_lt_Some.
Qed.

Lemma sum_store_sum (h : Heap) (ms : pmetric.Metric) (m : otlp.Metric)
    (dps : list otlp.NumberDataPoint) (t : otlp.AggregationTemporality)
    (monotonic : bool) :
  sum_store h ms m dps t monotonic !! length h =
    Some (OSum {| otlp.SumDataPoints := dps;
                  otlp.SumAggregationTemporality := t;
                  otlp.IsMonotonic := monotonic |}).
Proof.
  unfold sum_store. apply lookup_alloc_new. by rewrite length_insert.
Qed.

Lemma points_gauge (h : Heap) (l : loc) (g : otlp.Gauge) :
  h !! l = Some (OGauge g) →
  pmetric.points l h = Some (otlp.GaugeDataPoints g, h).
Proof.
  intros Hl. unfold pmetric.points.
  by rewrite (bind_Some _ _ _ _ _ (load_Some _ _ _ Hl)).
Qed.

Lemma points_sum (h : Heap) (l : loc) (s : otlp.Sum) :
  h !! l = Some (OSum s) →
  pmetric.points l h = Some (otlp.SumDataPoints s, h).
Proof.
  intros Hl. unfold pmetric.points.
  by rewrite (bind_Some _ _ _ _ _ (load_Some _ _ _ Hl)).
Qed.

(** [Map.Remove] leaves the map without the key; when the key is absent
    this is the map as it was. *)
Lemma Remove_spec (h : list Obj) (m : nat) (kvs : gmap string otlp.AnyValue)
    (key : string) :
  h !! m = Some (OMap kvs) →
  ∃ present,
    pcommon.Remove m key h = Some (present, <[m := OMap (delete key kvs)]> h).
Proof.
  intros Hm. unfold pcommon.Remove, pcommon.orig.
  rewrite (bind_Some _ _ h h kvs);
    [|by rewrite (bind_Some _ _ _ _ _ (load_Some _ _ _ Hm))].
  destruct (kvs !! key) as [v|] eqn:Hkey.
  - exists true. by rewrite (bind_Some _ _ _ _ _ (store_Some _ _ _ _ Hm)).
  - exists false. rewrite (delete_id _ _ Hkey).
    by rewrite list_insert_id.
Qed.

(** ** The function built by [DeleteKey] *)

Section DeleteKey.
Context {K : Type}.
Variables (target : ottl.Getter K) (key : string).
Variable f : ottl.ExprFunc K.
Hypothesis Hf : DeleteKey target key = (Some f, None).

Lemma delete_key_map (ctx : K) (h h1 : list Obj) (attrs : nat)
    (kvs : gmap string otlp.AnyValue) :
  ottl.Get target ctx h = Some ((IMap attrs, None), h1) →
  h1 !! attrs = Some (OMap kvs) →
  f ctx h = Some ((Nil, None), <[attrs := OMap (delete key kvs)]> h1).
Proof.
  intros Hget Hattrs. injection Hf as <-.
  rewrite (bind_Some _ _ _ _ _ Hget).
  destruct (Remove_spec h1 attrs kvs key Hattrs) as [present Hrm].
  by rewrite (bind_Some _ _ _ _ _ Hrm).
Qed.

Lemma delete_key_absent (ctx : K) (h h1 : list Obj) (attrs : nat)
    (kvs : gmap string otlp.AnyValue) :
  ottl.Get target ctx h = Some ((IMap attrs, None), h1) →
  h1 !! attrs = Some (OMap kvs) →
  kvs !! key = None →
  f ctx h = Some ((Nil, None), h1).
Proof.
  intros Hget Hattrs Hkey.
  rewrite (delete_key_map ctx h h1 attrs kvs Hget Hattrs).
  by rewrite (delete_id _ _ Hkey), list_insert_id.
Qed.
End DeleteKey.

(** * Properties of [convertGaugeToSum] *)

(** C3: the temporality literal is checked when the function is bound.
    For every string other than "delta" and "cumulative",
    [convertGaugeToSum] returns no function and the error "unknown
    aggregation temporality: <literal>", so there is nothing that could
    be invoked on a record; for "delta" and for "cumulative" it returns
    a function and no error. *)
Theorem convertGaugeToSum_bind (stringAggTemp : string) (monotonic : bool) :
  (stringAggTemp ≠ "delta" → stringAggTemp ≠ "cumulative" →
   convertGaugeToSum stringAggTemp monotonic =
     (None,
      Some (Errorf ("unknown aggregation temporality: " ++ stringAggTemp))))
  ∧
  (stringAggTemp = "delta" ∨ stringAggTemp = "cumulative" →
   ∃ f, convertGaugeToSum stringAggTemp monotonic = (Some f, None)).
Proof.
  unfold convertGaugeToSum. split.
  - intros Hd Hc.
    destruct (String.eqb_spec stringAggTemp "delta") as [?|_]; [done|].
    by destruct (String.eqb_spec stringAggTemp "cumulative") as [?|_].
  - intros [->| ->]; cbn; eauto.
Qed.

(** C1: on a Gauge with N data points, the function built by
    [convertGaugeToSum "cumulative" true] returns (nil, nil) and leaves
    the metric a Sum that is monotonic, has cumulative temporality and
    holds exactly the N points of the gauge, equal in value and in
    order.  The handle to the gauge's points is taken before the shape
    is changed: right after [SetEmptySum] the metric no longer leads to
    the gauge and its own container is empty, while that handle still
    reads the original points, and it still does when the function has
    returned. *)
Theorem gauge_to_cumulative_sum
    (f : ottl.ExprFunc ottldatapoints.TransformContext)
    (ctx : ottldatapoints.TransformContext) (h : Heap) (m : otlp.Metric)
    (g : loc) (dps : list otlp.NumberDataPoint) (N : nat) :
  convertGaugeToSum "cumulative" true = (Some f, None) →
  h !! ottldatapoints.metric ctx = Some (OMetric m) →
  otlp.Data m = otlp.Metric_Gauge g →
  h !! g = Some (OGauge {| otlp.GaugeDataPoints := dps |}) →
  length dps = N →
  ∃ h' s sum,
    f ctx h = Some ((Nil, None), h') ∧
    pmetric.Type_ (ottldatapoints.metric ctx) h' =
      Some (pmetric.MetricTypeSum, h') ∧
    pmetric.Sum_ (ottldatapoints.metric ctx) h' = Some (Some s, h') ∧
    h' !! s = Some (OSum sum) ∧
    otlp.IsMonotonic sum = true ∧
    otlp.SumAggregationTemporality sum =
      pmetric.AggregationTemporalityCumulative ∧
    otlp.SumDataPoints sum = dps ∧
    length (otlp.SumDataPoints sum) = N ∧
    (∃ h1, pmetric.SetEmptySum (ottldatapoints.metric ctx) h =
             Some (Some s, h1) ∧
           pmetric.Gauge_ (ottldatapoints.metric ctx) h1 =
             Some (None, h1) ∧
           pmetric.points s h1 = Some ([], h1) ∧
           pmetric.points g h1 = Some (dps, h1)) ∧
    pmetric.points g h' = Some (dps, h').
Proof.
  intros Hf Hms Hd Hg HN.
  destruct (built_gauge _ _ _ Hf) as (aggTemp & [[Hs _]|[_ ->]] & Hrun);
    [discriminate Hs|].
  specialize (Hrun ctx h m g _ Hms Hd Hg). cbn in Hrun.
  assert (g ≠ ottldatapoints.metric ctx) as Hne.
  { intros ->. rewrite Hms in Hg. discriminate Hg. }
  eexists _, (length h), _. split; [exact Hrun|].
  split; [by apply Type_sum_store|].
  split.
  { eapply Sum_spec; [by apply sum_store_metric|reflexivity]. }
  split; [apply sum_store_sum|].
  do 4 (split; [done|]).
  split.
  - eexists. split; [by apply SetEmptySum_spec|]. split; [|split].
    + unfold pmetric.Gauge_.
      erewrite (bind_Some _ _ _ _
                  (otlp.with_Data m (otlp.Metric_Sum (length h))));
        [reflexivity|].
      apply orig_spec, list_lookup_insert_eq.
      rewrite length_app. apply lookup_lt_Some in Hms. lia.
    + apply (points_sum _ _
               {| otlp.SumDataPoints := [];
                  otlp.SumAggregationTemporality :=
                    otlp.AggregationTemporalityUnspecified;
                  otlp.IsMonotonic := false |}).
      rewrite list_lookup_insert_ne by (by eapply lookup_lt_length).
      by apply lookup_alloc_new.
    + apply (points_gauge _ _ {| otlp.GaugeDataPoints := dps |}).
      rewrite list_lookup_insert_ne by done.
      by apply lookup_alloc_old.
  - apply (points_gauge _ _ {| otlp.GaugeDataPoints := dps |}).
    by apply sum_store_frame.
Qed.

(** C4: on a metric that is not a Gauge, the function built by
    [convertGaugeToSum] returns the pair (nil, nil) and leaves the store
    as it was.  This result differs from every result that carries an
    error and from every result that carries a value. *)
Theorem not_a_gauge_is_skipped (stringAggTemp : string) (monotonic : bool)
    (f : ottl.ExprFunc ottldatapoints.TransformContext)
    (ctx : ottldatapoints.TransformContext) (h : Heap)
    (ty : pmetric.MetricType) :
  convertGaugeToSum stringAggTemp monotonic = (Some f, None) →
  pmetric.Type_ (ottldatapoints.metric ctx) h = Some (ty, h) →
  ty ≠ pmetric.MetricTypeGauge →
  ∃ r : result,
    f ctx h = Some (r, h) ∧
    r = (Nil, None) ∧
    (∀ val e, r ≠ (val, Some e)) ∧
    (∀ val, val ≠ Nil → r ≠ (val, None)).
Proof.
  intros Hf Hty Hne. exists (Nil, None).
  split; [by eapply built_other|].
  split; [done|]. split; [done|].
  intros val Hval [= <-]. done.
Qed.

(** C8: on a Gauge, the function built by [convertGaugeToSum] returns
    (nil, nil) and changes the data of the metric only.  The metric's
    cell differs from before in its [Data] field alone (name,
    description and unit are kept), one cell is added (the new Sum),
    and every other cell of the store, so everything else the context
    refers to, is as before. *)
Theorem gauge_to_sum_frame (stringAggTemp : string) (monotonic : bool)
    (f : ottl.ExprFunc ottldatapoints.TransformContext)
    (ctx : ottldatapoints.TransformContext) (h : Heap) (m : otlp.Metric)
    (g : loc) (r : otlp.Gauge) :
  convertGaugeToSum stringAggTemp monotonic = (Some f, None) →
  h !! ottldatapoints.metric ctx = Some (OMetric m) →
  otlp.Data m = otlp.Metric_Gauge g →
  h !! g = Some (OGauge r) →
  ∃ h' m',
    f ctx h = Some ((Nil, None), h') ∧
    h' !! ottldatapoints.metric ctx = Some (OMetric m') ∧
    m' = otlp.with_Data m (otlp.Metric_Sum (length h)) ∧
    otlp.Name m' = otlp.Name m ∧
    otlp.Description m' = otlp.Description m ∧
    otlp.Unit m' = otlp.Unit m ∧
    length h' = S (length h) ∧
    (∀ l o, l ≠ ottldatapoints.metric ctx →
            h !! l = Some o → h' !! l = Some o).
Proof.
  intros Hf Hms Hd Hg.
  destruct (built_gauge _ _ _ Hf) as (aggTemp & _ & Hrun).
  specialize (Hrun ctx h m g r Hms Hd Hg).
  eexists _, _. split; [exact Hrun|].
  split; [by apply sum_store_metric|].
  do 4 (split; [done|]). split.
  - unfold sum_store. rewrite length_app, length_insert. cbn. lia.
  - intros l o Hne Hl. by apply sum_store_frame.
Qed.

(** * Properties of [DeleteKey] *)

(** C10: binding [DeleteKey] cannot fail.  For every target and every
    key the constructor returns a function and no error. *)
Theorem DeleteKey_bind {K : Type} (target : ottl.Getter K) (key : string) :
  ∃ f : ottl.ExprFunc K, DeleteKey target key = (Some f, None).
Proof. unfold DeleteKey. eauto. Qed.

(** C2: when the target resolves without error to a map that contains
    the key, the function built by [DeleteKey] returns (nil, nil) and
    writes the map's cell only.  Afterwards the map is the former map
    without the key: the key is not in it, every other key has the
    value it had, and the map has one entry less. *)
Theorem delete_key_removes_key {K : Type} (target : ottl.Getter K)
    (key : string) (f : ottl.ExprFunc K) (ctx : K) (h h1 : list Obj)
    (attrs : nat) (kvs : gmap string otlp.AnyValue) (v : otlp.AnyValue) :
  DeleteKey target key = (Some f, None) →
  ottl.Get target ctx h = Some ((IMap attrs, None), h1) →
  h1 !! attrs = Some (OMap kvs) →
  kvs !! key = Some v →
  ∃ h' kvs',
    f ctx h = Some ((Nil, None), h') ∧
    h' !! attrs = Some (OMap kvs') ∧
    kvs' !! key = None ∧
    (∀ k, k ≠ key → kvs' !! k = kvs !! k) ∧
    S (size kvs') = size kvs ∧
    length h' = length h1 ∧
    (∀ l, l ≠ attrs → h' !! l = h1 !! l).
Proof.
  intros Hf Hget Hattrs Hkey.
  exists (<[attrs := OMap (delete key kvs)]> h1), (delete key kvs).
  split; [by eapply delete_key_map|].
  split.
  { apply list_lookup_insert_eq. by eapply lookup_lt_Some. }
  split; [apply lookup_delete_eq|].
  split; [by intros k Hk; apply lookup_delete_ne|].
  split.
  { rewrite (map_size_delete_Some key kvs) by eauto.
    assert (size kvs ≠ 0); [|lia].
    by eapply map_size_ne_0_lookup_2. }
  split; [apply length_insert|].
  intros l Hl. by apply list_lookup_insert_ne.
Qed.

(** C5: when [Get] on the target returns an error, the function built
    by [DeleteKey] returns that error, with a nil value, and writes
    nothing: the store is the one in which [Get] returned. *)
Theorem delete_key_propagates_error {K : Type} (target : ottl.Getter K)
    (key : string) (f : ottl.ExprFunc K) (ctx : K) (h h1 : list Obj)
    (val : interface) (e : error) :
  DeleteKey target key = (Some f, None) →
  ottl.Get target ctx h = Some ((val, Some e), h1) →
  f ctx h = Some ((Nil, Some e), h1).
Proof.
  intros Hf Hget. injection Hf as <-.
  rewrite (bind_Some _ _ _ _ _ Hget).
  reflexivity.
Qed.

(** C6: when the target resolves without error to a value that is
    neither nil nor a [pcommon.Map], the function built by [DeleteKey]
    returns (nil, nil) and writes nothing: the store, and with it the
    resolved value and the record, is the one in which [Get]
    returned. *)
Theorem delete_key_skips_non_map {K : Type} (target : ottl.Getter K)
    (key : string) (f : ottl.ExprFunc K) (ctx : K) (h h1 : list Obj)
    (val : interface) :
  DeleteKey target key = (Some f, None) →
  ottl.Get target ctx h = Some ((val, None), h1) →
  val ≠ Nil →
  (∀ attrs, val ≠ IMap attrs) →
  f ctx h = Some ((Nil, None), h1).
Proof.
  intros Hf Hget _ Hmap. injection Hf as <-.
  rewrite (bind_Some _ _ _ _ _ Hget).
  destruct val as [| | | | | |attrs| | |]; try reflexivity.
  by destruct (Hmap attrs).
Qed.

(** C9: when [Get] on the target returns a nil value and no error, the
    function built by [DeleteKey] returns (nil, nil), which is not an
    error, and writes nothing: no key is removed from any map, and the
    store is the one in which [Get] returned. *)
Theorem delete_key_skips_nil {K : Type} (target : ottl.Getter K)
    (key : string) (f : ottl.ExprFunc K) (ctx : K) (h h1 : list Obj) :
  DeleteKey target key = (Some f, None) →
  ottl.Get target ctx h = Some ((Nil, None), h1) →
  f ctx h = Some ((Nil, None), h1).
Proof.
  intros Hf Hget. injection Hf as <-.
  rewrite (bind_Some _ _ _ _ _ Hget).
  reflexivity.
Qed.

(** * Invoking twice *)

(** C7: invoking a bound function on a record that is already in its
    target state changes nothing and gives no error.

    - [convertGaugeToSum]: after a first invocation the metric is not
      a Gauge (a Gauge has become a Sum, any other metric is as it
      was), and invoking the function again returns (nil, nil) and
      leaves the store as the first invocation left it.
    - [DeleteKey]: on a map that does not contain the key, the function
      returns (nil, nil) and leaves the store as [Get] returned it; so
      after a first invocation on a map the key is gone, and a second
      invocation, when the target still resolves to that map, returns
      (nil, nil) and leaves the store as the first left it. *)
Theorem invoking_twice :
  (∀ (stringAggTemp : string) (monotonic : bool)
     (f : ottl.ExprFunc ottldatapoints.TransformContext)
     (ctx : ottldatapoints.TransformContext) (h : list Obj)
     (m : otlp.Metric),
     convertGaugeToSum stringAggTemp monotonic = (Some f, None) →
     h !! ottldatapoints.metric ctx = Some (OMetric m) →
     (∀ g, otlp.Data m = otlp.Metric_Gauge g →
           ∃ r, h !! g = Some (OGauge r)) →
     ∃ h1 ty,
       f ctx h = Some ((Nil, None), h1) ∧
       pmetric.Type_ (ottldatapoints.metric ctx) h1 = Some (ty, h1) ∧
       ty ≠ pmetric.MetricTypeGauge ∧
       ((∃ g, otlp.Data m = otlp.Metric_Gauge g) →
        ty = pmetric.MetricTypeSum) ∧
       f ctx h1 = Some ((Nil, None), h1))
  ∧
  (∀ (K : Type) (target : ottl.Getter K) (key : string)
     (f : ottl.ExprFunc K) (ctx : K) (h h0 : list Obj) (attrs : nat)
     (kvs : gmap string otlp.AnyValue),
     DeleteKey target key = (Some f, None) →
     ottl.Get target ctx h = Some ((IMap attrs, None), h0) →
     h0 !! attrs = Some (OMap kvs) →
     (kvs !! key = None → f ctx h = Some ((Nil, None), h0)) ∧
     ∃ h1 kvs1,
       f ctx h = Some ((Nil, None), h1) ∧
       h1 !! attrs = Some (OMap kvs1) ∧
       kvs1 !! key = None ∧
       (ottl.Get target ctx h1 = Some ((IMap attrs, None), h1) →
        f ctx h1 = Some ((Nil, None), h1))).
Proof.
  split.
  - intros stringAggTemp monotonic f ctx h m Hf Hms Hwf.
    destruct (Type_spec h _ m Hms) as (ty & Hty & Hgauge).
    destruct (decide (ty = pmetric.MetricTypeGauge)) as [Hty_gauge|Hty_other].
    + destruct (proj1 Hgauge Hty_gauge) as [g Hd].
      destruct (Hwf g Hd) as [r Hg].
      destruct (built_gauge _ _ _ Hf) as (aggTemp & _ & Hrun).
      specialize (Hrun ctx h m g r Hms Hd Hg).
      pose proof (Type_sum_store h _ m (otlp.GaugeDataPoints r)
                    aggTemp monotonic Hms) as Hty1.
      eexists _, pmetric.MetricTypeSum. split; [exact Hrun|].
      split; [exact Hty1|]. split; [done|]. split; [done|].
      by eapply built_other.
    + exists h, ty.
      split; [by eapply built_other|]. split; [done|]. split; [done|].
      split; [|by eapply built_other].
      intros Hd. by destruct Hty_other; apply Hgauge.
  - intros K target key f ctx h h0 attrs kvs Hf Hget Hattrs. split.
    + intros Hkey. by eapply delete_key_absent.
    + exists (<[attrs := OMap (delete key kvs)]> h0), (delete key kvs).
      assert (<[attrs := OMap (delete key kvs)]> h0 !! attrs =
              Some (OMap (delete key kvs))) as Hattrs1.
      { apply list_lookup_insert_eq. by eapply lookup_lt_Some. }
      split; [by eapply delete_key_map|].
      split; [done|].
      split; [apply lookup_delete_eq|].
      intros Hget1.
      eapply delete_key_absent; [done..|]. apply lookup_delete_eq.
Qed.

(** * The properties at the example store *)

Lemma convertGaugeToSum_bind_witness :
  convertGaugeToSum "gauge" true =
    (None, Some (Errorf "unknown aggregation temporality: gauge")) ∧
  (∃ f, convertGaugeToSum "delta" false = (Some f, None)) ∧
  (∃ f, convertGaugeToSum "cumulative" true = (Some f, None)).
Proof.
  split; [|split].
  - apply (proj1 (convertGaugeToSum_bind "gauge" true)); discriminate.
  - apply (proj2 (convertGaugeToSum_bind "delta" false)). by left.
  - apply (proj2 (convertGaugeToSum_bind "cumulative" true)). by right.
Defined.

Lemma gauge_to_cumulative_sum_witness :
  (convertGaugeToSum "cumulative" true = (Some Examples.to_cumulative, None) ∧
   Examples.heap0 !! ottldatapoints.metric Examples.ctx0 =
     Some (OMetric Examples.gauge_metric) ∧
   otlp.Data Examples.gauge_metric = otlp.Metric_Gauge 1 ∧
   Examples.heap0 !! 1 =
     Some (OGauge {| otlp.GaugeDataPoints :=
                       [Examples.point 1; Examples.point 2;
                        Examples.point 3] |}) ∧
   length [Examples.point 1; Examples.point 2; Examples.point 3] = 3) ∧
  ∃ h' s sum,
    Examples.to_cumulative Examples.ctx0 Examples.heap0 =
      Some ((Nil, None), h') ∧
    pmetric.Type_ (ottldatapoints.metric Examples.ctx0) h' =
      Some (pmetric.MetricTypeSum, h') ∧
    pmetric.Sum_ (ottldatapoints.metric Examples.ctx0) h' =
      Some (Some s, h') ∧
    h' !! s = Some (OSum sum) ∧
    otlp.IsMonotonic sum = true ∧
    otlp.SumAggregationTemporality sum =
      pmetric.AggregationTemporalityCumulative ∧
    otlp.SumDataPoints sum =
      [Examples.point 1; Examples.point 2; Examples.point 3] ∧
    length (otlp.SumDataPoints sum) = 3 ∧
    (∃ h1, pmetric.SetEmptySum (ottldatapoints.metric Examples.ctx0)
             Examples.heap0 = Some (Some s, h1) ∧
           pmetric.Gauge_ (ottldatapoints.metric Examples.ctx0) h1 =
             Some (None, h1) ∧
           pmetric.points s h1 = Some ([], h1) ∧
           pmetric.points 1 h1 =
             Some ([Examples.point 1; Examples.point 2; Examples.point 3],
                   h1)) ∧
    pmetric.points 1 h' =
      Some ([Examples.point 1; Examples.point 2; Examples.point 3], h').
Proof.
  split; [repeat split|].
  apply (gauge_to_cumulative_sum Examples.to_cumulative Examples.ctx0
           Examples.heap0 Examples.gauge_metric 1
           [Examples.point 1; Examples.point 2; Examples.point 3] 3);
    reflexivity.
Defined.

Lemma not_a_gauge_is_skipped_witness :
  (convertGaugeToSum "cumulative" true = (Some Examples.to_cumulative, None) ∧
   pmetric.Type_ (ottldatapoints.metric Examples.ctx1) Examples.heap0 =
     Some (pmetric.MetricTypeHistogram, Examples.heap0) ∧
   pmetric.MetricTypeHistogram ≠ pmetric.MetricTypeGauge) ∧
  ∃ r : result,
    Examples.to_cumulative Examples.ctx1 Examples.heap0 =
      Some (r, Examples.heap0) ∧
    r = (Nil, None) ∧
    (∀ val e, r ≠ (val, Some e)) ∧
    (∀ val, val ≠ Nil → r ≠ (val, None)).
Proof.
  split; [repeat split; discriminate|].
  apply (not_a_gauge_is_skipped "cumulative" true Examples.to_cumulative
           Examples.ctx1 Examples.heap0 pmetric.MetricTypeHistogram);
    [reflexivity|reflexivity|discriminate].
Defined.

Lemma gauge_to_sum_frame_witness :
  (convertGaugeToSum "delta" false = (Some Examples.to_delta, None) ∧
   Examples.heap0 !! ottldatapoints.metric Examples.ctx0 =
     Some (OMetric Examples.gauge_metric) ∧
   otlp.Data Examples.gauge_metric = otlp.Metric_Gauge 1 ∧
   Examples.heap0 !! 1 =
     Some (OGauge {| otlp.GaugeDataPoints :=
                       [Examples.point 1; Examples.point 2;
                        Examples.point 3] |})) ∧
  ∃ h' m',
    Examples.to_delta Examples.ctx0 Examples.heap0 = Some ((Nil, None), h') ∧
    h' !! ottldatapoints.metric Examples.ctx0 = Some (OMetric m') ∧
    m' = otlp.with_Data Examples.gauge_metric
           (otlp.Metric_Sum (length Examples.heap0)) ∧
    otlp.Name m' = otlp.Name Examples.gauge_metric ∧
    otlp.Description m' = otlp.Description Examples.gauge_metric ∧
    otlp.Unit m' = otlp.Unit Examples.gauge_metric ∧
    length h' = S (length Examples.heap0) ∧
    (∀ l o, l ≠ ottldatapoints.metric Examples.ctx0 →
            Examples.heap0 !! l = Some o → h' !! l = Some o).
Proof.
  split; [repeat split|].
  apply (gauge_to_sum_frame "delta" false Examples.to_delta Examples.ctx0
           Examples.heap0 Examples.gauge_metric 1
           {| otlp.GaugeDataPoints :=
                [Examples.point 1; Examples.point 2; Examples.point 3] |});
    reflexivity.
Defined.

Lemma delete_key_removes_key_witness :
  (DeleteKey (Examples.map_getter 2) "k" =
     (Some (Examples.delete_k (Examples.map_getter 2)), None) ∧
   ottl.Get (Examples.map_getter 2) tt Examples.heap0 =
     Some ((IMap 2, None), Examples.heap0) ∧
   Examples.heap0 !! 2 = Some (OMap Examples.attrs) ∧
   Examples.attrs !! "k" = Some (otlp.ValueStr "v")) ∧
  ∃ h' kvs',
    Examples.delete_k (Examples.map_getter 2) tt Examples.heap0 =
      Some ((Nil, None), h') ∧
    h' !! 2 = Some (OMap kvs') ∧
    kvs' !! "k" = None ∧
    (∀ k, k ≠ "k" → kvs' !! k = Examples.attrs !! k) ∧
    S (size kvs') = size Examples.attrs ∧
    length h' = length Examples.heap0 ∧
    (∀ l, l ≠ 2 → h' !! l = Examples.heap0 !! l).
Proof.
  split; [repeat split|].
  apply (delete_key_removes_key (Examples.map_getter 2) "k"
           (Examples.delete_k (Examples.map_getter 2)) tt
           Examples.heap0 Examples.heap0 2 Examples.attrs
           (otlp.ValueStr "v"));
    reflexivity.
Defined.

Lemma delete_key_propagates_error_witness :
  (DeleteKey Examples.failing_getter "k" =
     (Some (Examples.delete_k Examples.failing_getter), None) ∧
   ottl.Get Examples.failing_getter tt Examples.heap0 =
     Some ((Nil, Some (Errorf "path not found")), Examples.heap0)) ∧
  Examples.delete_k Examples.failing_getter tt Examples.heap0 =
    Some ((Nil, Some (Errorf "path not found")), Examples.heap0).
Proof.
  split; [repeat split|].
  apply (delete_key_propagates_error Examples.failing_getter "k"
           (Examples.delete_k Examples.failing_getter) tt
           Examples.heap0 Examples.heap0 Nil (Errorf "path not found"));
    reflexivity.
Defined.

Lemma delete_key_skips_non_map_witness :
  (DeleteKey Examples.string_getter "k" =
     (Some (Examples.delete_k Examples.string_getter), None) ∧
   ottl.Get Examples.string_getter tt Examples.heap0 =
     Some ((IString "v", None), Examples.heap0) ∧
   IString "v" ≠ Nil ∧
   (∀ attrs, IString "v" ≠ IMap attrs)) ∧
  Examples.delete_k Examples.string_getter tt Examples.heap0 =
    Some ((Nil, None), Examples.heap0).
Proof.
  split; [repeat split; discriminate|].
  apply (delete_key_skips_non_map Examples.string_getter "k"
           (Examples.delete_k Examples.string_getter) tt
           Examples.heap0 Examples.heap0 (IString "v"));
    [reflexivity|reflexivity|discriminate|discriminate].
Defined.

Lemma delete_key_skips_nil_witness :
  (DeleteKey Examples.nil_getter "k" =
     (Some (Examples.delete_k Examples.nil_getter), None) ∧
   ottl.Get Examples.nil_getter tt Examples.heap0 =
     Some ((Nil, None), Examples.heap0)) ∧
  Examples.delete_k Examples.nil_getter tt Examples.heap0 =
    Some ((Nil, None), Examples.heap0).
Proof.
  split; [repeat split|].
  apply (delete_key_skips_nil Examples.nil_getter "k"
           (Examples.delete_k Examples.nil_getter) tt
           Examples.heap0 Examples.heap0);
    reflexivity.
Defined.

Lemma invoking_twice_witness :
  ((convertGaugeToSum "delta" false = (Some Examples.to_delta, None) ∧
    Examples.heap0 !! ottldatapoints.metric Examples.ctx0 =
      Some (OMetric Examples.gauge_metric) ∧
    (∀ g, otlp.Data Examples.gauge_metric = otlp.Metric_Gauge g →
          ∃ r, Examples.heap0 !! g = Some (OGauge r))) ∧
   ∃ h1 ty,
     Examples.to_delta Examples.ctx0 Examples.heap0 =
       Some ((Nil, None), h1) ∧
     pmetric.Type_ (ottldatapoints.metric Examples.ctx0) h1 =
       Some (ty, h1) ∧
     ty ≠ pmetric.MetricTypeGauge ∧
     ((∃ g, otlp.Data Examples.gauge_metric = otlp.Metric_Gauge g) →
      ty = pmetric.MetricTypeSum) ∧
     Examples.to_delta Examples.ctx0 h1 = Some ((Nil, None), h1))
  ∧
  ((DeleteKey (Examples.map_getter 2) "k" =
      (Some (Examples.delete_k (Examples.map_getter 2)), None) ∧
    ottl.Get (Examples.map_getter 2) tt Examples.heap0 =
      Some ((IMap 2, None), Examples.heap0) ∧
    Examples.heap0 !! 2 = Some (OMap Examples.attrs)) ∧
   ∃ h1 kvs1,
     Examples.delete_k (Examples.map_getter 2) tt Examples.heap0 =
       Some ((Nil, None), h1) ∧
     h1 !! 2 = Some (OMap kvs1) ∧
     kvs1 !! "k" = None ∧
     Examples.delete_k (Examples.map_getter 2) tt h1 =
       Some ((Nil, None), h1))
  ∧
  ((DeleteKey (Examples.map_getter 4) "k" =
      (Some (Examples.delete_k (Examples.map_getter 4)), None) ∧
    ottl.Get (Examples.map_getter 4) tt Examples.heap0 =
      Some ((IMap 4, None), Examples.heap0) ∧
    Examples.heap0 !! 4 = Some (OMap Examples.resource_attrs) ∧
    Examples.resource_attrs !! "k" = None) ∧
   Examples.delete_k (Examples.map_getter 4) tt Examples.heap0 =
     Some ((Nil, None), Examples.heap0)).
Proof.
  split; [|split].
  - assert (∀ g, otlp.Data Examples.gauge_metric = otlp.Metric_Gauge g →
                 ∃ r, Examples.heap0 !! g = Some (OGauge r)) as Hwf.
    { intros g [= <-]. eexists. reflexivity. }
    split; [repeat split; exact Hwf|].
    apply (proj1 invoking_twice "delta" false Examples.to_delta Examples.ctx0
             Examples.heap0 Examples.gauge_metric eq_refl eq_refl Hwf).
  - split; [repeat split|].
    destruct (proj2 (proj2 invoking_twice unit (Examples.map_getter 2) "k"
                       (Examples.delete_k (Examples.map_getter 2)) tt
                       Examples.heap0 Examples.heap0 2 Examples.attrs
                       eq_refl eq_refl eq_refl))
      as (h1 & kvs1 & Hrun & Hkvs1 & Hgone & Hagain).
    exists h1, kvs1. repeat split; [exact Hrun|exact Hkvs1|exact Hgone|].
    apply Hagain. reflexivity.
  - split; [repeat split|].
    apply (proj1 (proj2 invoking_twice unit (Examples.map_getter 4) "k"
                    (Examples.delete_k (Examples.map_getter 4)) tt
                    Examples.heap0 Examples.heap0 4 Examples.resource_attrs
                    eq_refl eq_refl eq_refl)).
    reflexivity.
Defined.

(** * Further properties *)

(** ** What a returning invocation tells about the store *)

Lemma bind_inv {A B : Type} (c : M A) (k : A → M B) (h h2 : list Obj)
    (b : B) :
  bind c k h = Some (b, h2) →
  ∃ a h1, c h = Some (a, h1) ∧ k a h1 = Some (b, h2).
Proof.
  unfold bind. destruct (c h) as [[a h1]|]; [|discriminate].
  intros Hk. by exists a, h1.
Qed.

Lemma load_inv (l : nat) (h h' : list Obj) (o : Obj) :
  load l h = Some (o, h') → h !! l = Some o ∧ h' = h.
Proof.
  unfold load. destruct (h !! l) as [o'|]; [|discriminate].
  by intros [= -> ->].
Qed.

Lemma store_inv (l : nat) (o : Obj) (h h' : list Obj) (u : unit) :
  store l o h = Some (u, h') → h' = <[l:=o]> h.
Proof.
  unfold store. destruct (h !! l) as [o'|]; [|discriminate].
  by intros [= _ <-].
Qed.

Lemma orig_inv (ms : nat) (h h' : list Obj) (m : otlp.Metric) :
  pmetric.orig ms h = Some (m, h') → h !! ms = Some (OMetric m) ∧ h' = h.
Proof.
  unfold pmetric.orig. intros (o & h1 & Hload & Hk)%bind_inv.
  apply load_inv in Hload as [Hl ->].
  destruct o; try discriminate Hk.
  by injection Hk as -> ->.
Qed.

Lemma Remove_inv (m : nat) (key : string) (h h' : list Obj)
    (present : bool) :
  pcommon.Remove m key h = Some (present, h') →
  ∃ kvs, h !! m = Some (OMap kvs) ∧ h' = <[m := OMap (delete key kvs)]> h.
Proof.
  intros Hrm.
  assert (∃ kvs, h !! m = Some (OMap kvs)) as [kvs Hm].
  { unfold pcommon.Remove, pcommon.orig in Hrm.
    apply bind_inv in Hrm as (kvs & h1 & Horig & _).
    apply bind_inv in Horig as (o & h2 & Hload & Hk).
    apply load_inv in Hload as [Hl ->].
    destruct o; try discriminate Hk. eauto. }
  exists kvs. split; [done|].
  destruct (Remove_spec h m kvs key Hm) as [present' Hspec].
  rewrite Hspec in Hrm. by injection Hrm as _ <-.
Qed.

(** When the function built by [convertGaugeToSum] returns, the metric
    of the context is in the store, and a Gauge has its points there. *)
Lemma built_inv (stringAggTemp : string) (monotonic : bool)
    (f : ottl.ExprFunc ottldatapoints.TransformContext)
    (ctx : ottldatapoints.TransformContext) (h h' : list Obj) (r : result) :
  convertGaugeToSum stringAggTemp monotonic = (Some f, None) →
  f ctx h = Some (r, h') →
  ∃ m, h !! ottldatapoints.metric ctx = Some (OMetric m) ∧
       ((∀ g, otlp.Data m ≠ otlp.Metric_Gauge g) ∨
        (∃ g gauge, otlp.Data m = otlp.Metric_Gauge g ∧
                    h !! g = Some (OGauge gauge))).
Proof.
  unfold convertGaugeToSum. intros Hf Hrun.
  destruct (if String.eqb stringAggTemp "delta" then _ else _)
    as [aggTemp|]; [|discriminate Hf].
  injection Hf as <-. cbn [ottldatapoints.GetMetric] in Hrun.
  apply bind_inv in Hrun as (ty & h1 & Hty & Hrun).
  unfold pmetric.Type_ in Hty.
  apply bind_inv in Hty as (m & h2 & Horig & Hty).
  apply orig_inv in Horig as [Hms ->].
  injection Hty as <- <-.
  exists m. split; [done|].
  destruct (otlp.Data m) as [|g| | | |] eqn:Hd;
    try (left; intros g'; discriminate).
  right. exists g.
  rewrite decide_False in Hrun by (by intros Hne; apply Hne).
  rewrite (bind_Some _ _ _ _ _ (Gauge_spec h _ m g Hms Hd)) in Hrun.
  apply bind_inv in Hrun as (dps & h3 & Hdps & _).
  unfold pmetric.Gauge_DataPoints in Hdps.
  apply bind_inv in Hdps as (o & h4 & Hload & Hk).
  apply load_inv in Hload as [Hg ->].
  destruct o; try discriminate Hk. eauto.
Qed.

(** When the function built by [DeleteKey] returns, [Get] has returned,
    the value is nil, the error is the one of [Get], and the store is
    the one of [Get], but for the key removed from the map [Get]
    resolved to. *)
Lemma delete_key_inv {K : Type} (target : ottl.Getter K) (key : string)
    (f : ottl.ExprFunc K) (ctx : K) (h h' : list Obj) (v : interface)
    (e : option error) :
  DeleteKey target key = (Some f, None) →
  f ctx h = Some ((v, e), h') →
  ∃ val h1,
    ottl.Get target ctx h = Some ((val, e), h1) ∧
    v = Nil ∧
    (h' = h1 ∨
     ∃ attrs kvs, val = IMap attrs ∧ e = None ∧
                  h1 !! attrs = Some (OMap kvs) ∧
                  h' = <[attrs := OMap (delete key kvs)]> h1).
Proof.
  intros Hf Hrun. injection Hf as <-.
  apply bind_inv in Hrun as ([val err] & h1 & Hget & Hrun).
  exists val, h1.
  destruct err as [e'|].
  { injection Hrun as <- <- <-. eauto. }
  destruct val as [| | | | | |attrs| | |];
    try (injection Hrun as <- <- <-; by eauto).
  apply bind_inv in Hrun as (present & h2 & Hrm & Hret).
  injection Hret as <- <- <-.
  apply Remove_inv in Hrm as (kvs & Hattrs & ->).
  split; [done|]. split; [done|]. right. by exists attrs, kvs.
Qed.

(** ** More on [convertGaugeToSum] *)

(** X1: the arguments bound by [convertGaugeToSum] are what the Sum gets.
    On a Gauge, the function built from a literal and a flag leaves a
    Sum whose monotonicity is the flag, whose temporality is Delta for
    "delta" and Cumulative for "cumulative" (never unspecified), and
    whose points are the points of the gauge. *)
Theorem gauge_to_sum_parameters (stringAggTemp : string) (monotonic : bool)
    (f : ottl.ExprFunc ottldatapoints.TransformContext)
    (ctx : ottldatapoints.TransformContext) (h : list Obj) (m : otlp.Metric)
    (g : nat) (dps : list otlp.NumberDataPoint) :
  convertGaugeToSum stringAggTemp monotonic = (Some f, None) →
  h !! ottldatapoints.metric ctx = Some (OMetric m) →
  otlp.Data m = otlp.Metric_Gauge g →
  h !! g = Some (OGauge {| otlp.GaugeDataPoints := dps |}) →
  ∃ h' s sum,
    f ctx h = Some ((Nil, None), h') ∧
    pmetric.Sum_ (ottldatapoints.metric ctx) h' = Some (Some s, h') ∧
    h' !! s = Some (OSum sum) ∧
    otlp.IsMonotonic sum = monotonic ∧
    otlp.SumDataPoints sum = dps ∧
    (stringAggTemp = "delta" →
     otlp.SumAggregationTemporality sum =
       pmetric.AggregationTemporalityDelta) ∧
    (stringAggTemp = "cumulative" →
     otlp.SumAggregationTemporality sum =
       pmetric.AggregationTemporalityCumulative) ∧
    otlp.SumAggregationTemporality sum ≠
      pmetric.AggregationTemporalityUnspecified.
Proof.
  intros Hf Hms Hd Hg.
  destruct (built_gauge _ _ _ Hf) as (aggTemp & Hlit & Hrun).
  specialize (Hrun ctx h m g _ Hms Hd Hg). cbn in Hrun.
  eexists _, (length h), _. split; [exact Hrun|].
  split.
  { eapply Sum_spec; [by apply sum_store_metric|reflexivity]. }
  split; [apply sum_store_sum|].
  cbn. split; [done|]. split; [done|].
  destruct Hlit as [[-> ->]|[-> ->]]; split_and!; done.
Qed.

(** X2: the first conversion wins.  After the function built from one
    literal and flag has converted a Gauge, the function built from any
    literal and flag, invoked on any context of the same metric (say,
    that of another data point of the metric), returns (nil, nil) and
    changes nothing: running both in sequence gives the store the first
    alone gives. *)
Theorem first_conversion_wins (stringAggTemp1 stringAggTemp2 : string)
    (monotonic1 monotonic2 : bool)
    (f1 f2 : ottl.ExprFunc ottldatapoints.TransformContext)
    (ctx1 ctx2 : ottldatapoints.TransformContext) (h : list Obj)
    (m : otlp.Metric) (g : nat) (gauge : otlp.Gauge) :
  convertGaugeToSum stringAggTemp1 monotonic1 = (Some f1, None) →
  convertGaugeToSum stringAggTemp2 monotonic2 = (Some f2, None) →
  ottldatapoints.metric ctx2 = ottldatapoints.metric ctx1 →
  h !! ottldatapoints.metric ctx1 = Some (OMetric m) →
  otlp.Data m = otlp.Metric_Gauge g →
  h !! g = Some (OGauge gauge) →
  ∃ h1,
    f1 ctx1 h = Some ((Nil, None), h1) ∧
    f2 ctx2 h1 = Some ((Nil, None), h1) ∧
    (f1 ctx1 ;; f2 ctx2) h = Some ((Nil, None), h1).
Proof.
  intros Hf1 Hf2 Hsame Hms Hd Hg.
  destruct (built_gauge _ _ _ Hf1) as (aggTemp & _ & Hrun).
  specialize (Hrun ctx1 h m g gauge Hms Hd Hg).
  pose proof (Type_sum_store h _ m (otlp.GaugeDataPoints gauge)
                aggTemp monotonic1 Hms) as Hty.
  rewrite <- Hsame in Hty at 1.
  assert (f2 ctx2 (sum_store h (ottldatapoints.metric ctx1) m
                     (otlp.GaugeDataPoints gauge) aggTemp monotonic1) =
          Some ((Nil, None),
                sum_store h (ottldatapoints.metric ctx1) m
                  (otlp.GaugeDataPoints gauge) aggTemp monotonic1))
    as Hrun2 by (by eapply built_other).
  eexists. split; [exact Hrun|]. split; [exact Hrun2|].
  by rewrite (bind_Some _ _ _ _ _ Hrun).
Qed.

(** X3: conversions of different metrics do not interfere.  When the
    same bound function is invoked on two contexts whose metrics are
    different Gauges, both metrics end as Sums, in different cells, each
    with the points of its own gauge. *)
Theorem conversions_do_not_interfere (stringAggTemp : string)
    (monotonic : bool)
    (f : ottl.ExprFunc ottldatapoints.TransformContext)
    (ctxA ctxB : ottldatapoints.TransformContext) (h : list Obj)
    (mA mB : otlp.Metric) (gA gB : nat)
    (dpsA dpsB : list otlp.NumberDataPoint) :
  convertGaugeToSum stringAggTemp monotonic = (Some f, None) →
  ottldatapoints.metric ctxA ≠ ottldatapoints.metric ctxB →
  h !! ottldatapoints.metric ctxA = Some (OMetric mA) →
  otlp.Data mA = otlp.Metric_Gauge gA →
  h !! gA = Some (OGauge {| otlp.GaugeDataPoints := dpsA |}) →
  h !! ottldatapoints.metric ctxB = Some (OMetric mB) →
  otlp.Data mB = otlp.Metric_Gauge gB →
  h !! gB = Some (OGauge {| otlp.GaugeDataPoints := dpsB |}) →
  ∃ h2 sA sB,
    (f ctxA ;; f ctxB) h = Some ((Nil, None), h2) ∧
    pmetric.Sum_ (ottldatapoints.metric ctxA) h2 = Some (Some sA, h2) ∧
    pmetric.points sA h2 = Some (dpsA, h2) ∧
    pmetric.Sum_ (ottldatapoints.metric ctxB) h2 = Some (Some sB, h2) ∧
    pmetric.points sB h2 = Some (dpsB, h2) ∧
    sA ≠ sB.
Proof.
  intros Hf Hne HmsA HdA HgA HmsB HdB HgB.
  destruct (built_gauge _ _ _ Hf) as (aggTemp & _ & Hrun).
  pose proof (Hrun ctxA h mA gA _ HmsA HdA HgA) as HrunA. cbn in HrunA.
  set (h1 := sum_store h (ottldatapoints.metric ctxA) mA dpsA aggTemp
               monotonic) in *.
  assert (gB ≠ ottldatapoints.metric ctxA) as HneB.
  { intros ->. rewrite HmsA in HgB. discriminate HgB. }
  assert (h1 !! ottldatapoints.metric ctxB = Some (OMetric mB)) as HmsB1
    by (by apply sum_store_frame).
  assert (h1 !! gB = Some (OGauge {| otlp.GaugeDataPoints := dpsB |}))
    as HgB1 by (by apply sum_store_frame).
  pose proof (Hrun ctxB h1 mB gB _ HmsB1 HdB HgB1) as HrunB. cbn in HrunB.
  set (h2 := sum_store h1 (ottldatapoints.metric ctxB) mB dpsB aggTemp
               monotonic) in *.
  assert (length h1 = S (length h)) as Hlen.
  { subst h1. unfold sum_store.
    rewrite length_app, length_insert. cbn. lia. }
  pose proof (lookup_lt_Some _ _ _ HmsB) as HltB.
  exists h2, (length h), (length h1).
  split; [by rewrite (bind_Some _ _ _ _ _ HrunA)|].
  split.
  { eapply Sum_spec;
      [subst h2; apply sum_store_frame;
         [done|subst h1; by apply sum_store_metric]
      |reflexivity]. }
  split.
  { eapply (points_sum _ _ {| otlp.SumDataPoints := dpsA |}). subst h2.
    apply sum_store_frame; [lia|]. subst h1. apply sum_store_sum. }
  split.
  { eapply Sum_spec; [subst h2; by apply sum_store_metric|reflexivity]. }
  split.
  { eapply (points_sum _ _ {| otlp.SumDataPoints := dpsB |}). subst h2.
    apply sum_store_sum. }
  lia.
Qed.

(** X4: every error of [convertGaugeToSum] is a bind-time error.
    Whenever the built function returns, on whatever store, it returns
    (nil, nil); the store has grown by at most one cell; the metric of
    the context keeps its name, description and unit; and every other
    cell is as it was. *)
Theorem convert_returns_only_nil (stringAggTemp : string) (monotonic : bool)
    (f : ottl.ExprFunc ottldatapoints.TransformContext)
    (ctx : ottldatapoints.TransformContext) (h h' : list Obj) (r : result) :
  convertGaugeToSum stringAggTemp monotonic = (Some f, None) →
  f ctx h = Some (r, h') →
  r = (Nil, None) ∧
  (length h ≤ length h')%nat ∧
  (length h' ≤ S (length h))%nat ∧
  (∃ m m', h !! ottldatapoints.metric ctx = Some (OMetric m) ∧
           h' !! ottldatapoints.metric ctx = Some (OMetric m') ∧
           otlp.Name m' = otlp.Name m ∧
           otlp.Description m' = otlp.Description m ∧
           otlp.Unit m' = otlp.Unit m) ∧
  (∀ l o, l ≠ ottldatapoints.metric ctx →
          h !! l = Some o → h' !! l = Some o).
Proof.
  intros Hf Hrun.
  destruct (built_inv _ _ _ _ _ _ _ Hf Hrun) as (m & Hms & [Hother|Hgauge]).
  - destruct (Type_spec h _ m Hms) as (ty & Hty & Hiff).
    assert (ty ≠ pmetric.MetricTypeGauge) as Hne.
    { intros [g Hd]%Hiff. by destruct (Hother g). }
    rewrite (built_other _ _ _ Hf ctx h ty Hty Hne) in Hrun.
    injection Hrun as <- <-.
    split; [done|]. split; [lia|]. split; [lia|]. split; [|done].
    by exists m, m.
  - destruct Hgauge as (g & gauge & Hd & Hg).
    destruct (built_gauge _ _ _ Hf) as (aggTemp & _ & Hspec).
    rewrite (Hspec ctx h m g gauge Hms Hd Hg) in Hrun.
    injection Hrun as <- <-.
    assert (length (sum_store h (ottldatapoints.metric ctx) m
                      (otlp.GaugeDataPoints gauge) aggTemp monotonic) =
            S (length h)) as Hlen.
    { unfold sum_store. rewrite length_app, length_insert. cbn. lia. }
    split; [done|]. split; [lia|]. split; [lia|].
    split.
    + eexists m, _. split; [done|].
      split; [by apply sum_store_metric|]. done.
    + intros l o Hne Hl. by apply sum_store_frame.
Qed.

(** ** More on [DeleteKey] *)

(** X5: the function built by [DeleteKey] has no value and no error of
    its own.  Whenever it returns, the value is nil, [Get] on the target
    has returned, and the error is the one [Get] returned: an error
    exactly when [Get] gave one, and then that one. *)
Theorem delete_key_result {K : Type} (target : ottl.Getter K)
    (key : string) (f : ottl.ExprFunc K) (ctx : K) (h h' : list Obj)
    (v : interface) (e : option error) :
  DeleteKey target key = (Some f, None) →
  f ctx h = Some ((v, e), h') →
  v = Nil ∧
  ∃ val h1, ottl.Get target ctx h = Some ((val, e), h1).
Proof.
  intros Hf Hrun.
  destruct (delete_key_inv _ _ _ _ _ _ _ _ Hf Hrun)
    as (val & h1 & Hget & Hv & _).
  split; [done|]. by exists val, h1.
Qed.

(** X6: the function built by [DeleteKey] only removes, and only the
    key.  Whenever it returns, the store has as many cells as [Get]
    left; each cell is as [Get] left it, or is a map that has lost
    nothing but the key: it is included in the former map and agrees
    with it on every other key. *)
Theorem delete_key_only_removes {K : Type} (target : ottl.Getter K)
    (key : string) (f : ottl.ExprFunc K) (ctx : K) (h h1 h' : list Obj)
    (r rg : result) :
  DeleteKey target key = (Some f, None) →
  ottl.Get target ctx h = Some (rg, h1) →
  f ctx h = Some (r, h') →
  length h' = length h1 ∧
  ∀ l,
    h' !! l = h1 !! l ∨
    ∃ kvs kvs',
      h1 !! l = Some (OMap kvs) ∧
      h' !! l = Some (OMap kvs') ∧
      kvs' ⊆ kvs ∧
      (∀ k, k ≠ key → kvs' !! k = kvs !! k).
Proof.
  intros Hf Hget Hrun. destruct r as [v e].
  destruct (delete_key_inv _ _ _ _ _ _ _ _ Hf Hrun)
    as (val & h1' & Hget' & _ & Hstore).
  rewrite Hget in Hget'. injection Hget' as _ <-.
  destruct Hstore as [->|(attrs & kvs & _ & _ & Hattrs & ->)].
  { split; [done|]. by left. }
  split; [apply length_insert|].
  intros l. destruct (decide (l = attrs)) as [->|Hne].
  - right. exists kvs, (delete key kvs).
    split; [done|]. split.
    { apply list_lookup_insert_eq. by eapply lookup_lt_Some. }
    split; [apply delete_subseteq|].
    intros k Hk. by apply lookup_delete_ne.
  - left. by apply list_lookup_insert_ne.
Qed.

(** X7: deletions of two keys commute.  For a target that resolves to
    the same map whatever the map holds, deleting one key and then the
    other gives the same store as deleting them the other way round;
    in it both keys are gone and every other key has the value it
    had. *)
Theorem delete_key_commute {K : Type} (target : ottl.Getter K)
    (key1 key2 : string) (f1 f2 : ottl.ExprFunc K) (ctx : K)
    (h : list Obj) (attrs : nat) (kvs : gmap string otlp.AnyValue) :
  DeleteKey target key1 = (Some f1, None) →
  DeleteKey target key2 = (Some f2, None) →
  h !! attrs = Some (OMap kvs) →
  (∀ kvs', ottl.Get target ctx (<[attrs := OMap kvs']> h) =
             Some ((IMap attrs, None), <[attrs := OMap kvs']> h)) →
  ∃ h2 kvs2,
    (f1 ctx ;; f2 ctx) h = Some ((Nil, None), h2) ∧
    (f2 ctx ;; f1 ctx) h = Some ((Nil, None), h2) ∧
    h2 !! attrs = Some (OMap kvs2) ∧
    kvs2 !! key1 = None ∧
    kvs2 !! key2 = None ∧
    (∀ k, k ≠ key1 → k ≠ key2 → kvs2 !! k = kvs !! k).
Proof.
  intros Hf1 Hf2 Hattrs Hstable.
  pose proof (lookup_lt_Some _ _ _ Hattrs) as Hlt.
  assert (ottl.Get target ctx h = Some ((IMap attrs, None), h)) as Hget.
  { specialize (Hstable kvs). by rewrite list_insert_id in Hstable. }
  assert (∀ (key key' : string) (f f' : ottl.ExprFunc K),
            DeleteKey target key = (Some f, None) →
            DeleteKey target key' = (Some f', None) →
            (f ctx ;; f' ctx) h =
              Some ((Nil, None),
                    <[attrs := OMap (delete key' (delete key kvs))]> h))
    as Hseq.
  { intros key key' f f' Hf Hf'.
    rewrite (bind_Some _ _ _ _ _
               (delete_key_map target key f Hf ctx h h attrs kvs
                  Hget Hattrs)).
    rewrite (delete_key_map target key' f' Hf' ctx _ _ attrs
               (delete key kvs) (Hstable _)
               (list_lookup_insert_eq _ _ _ Hlt)).
    by rewrite list_insert_insert_eq. }
  exists (<[attrs := OMap (delete key2 (delete key1 kvs))]> h),
         (delete key2 (delete key1 kvs)).
  split; [by apply Hseq|].
  split; [rewrite (delete_delete kvs key2 key1); by apply Hseq|].
  split; [by apply list_lookup_insert_eq|].
  split.
  { destruct (decide (key1 = key2)) as [->|Hne];
      [apply lookup_delete_eq|].
    rewrite lookup_delete_ne by done. apply lookup_delete_eq. }
  split; [apply lookup_delete_eq|].
  intros k Hk1 Hk2. by rewrite !lookup_delete_ne.
Qed.


(** X9: a deletion is seen through every handle to the map.  When the
    targets of two contexts resolve to the same map (two data points
    under one resource, say), invoking the function on the first
    context removes the key for both: invoked on the second context
    afterwards, it returns (nil, nil) and changes nothing. *)
Theorem delete_key_shared_map {K : Type} (target : ottl.Getter K)
    (key : string) (f : ottl.ExprFunc K) (ctx1 ctx2 : K) (h : list Obj)
    (attrs : nat) (kvs : gmap string otlp.AnyValue) :
  DeleteKey target key = (Some f, None) →
  ottl.Get target ctx1 h = Some ((IMap attrs, None), h) →
  h !! attrs = Some (OMap kvs) →
  (∀ h1, f ctx1 h = Some ((Nil, None), h1) →
         ottl.Get target ctx2 h1 = Some ((IMap attrs, None), h1)) →
  ∃ h1 kvs1,
    f ctx1 h = Some ((Nil, None), h1) ∧
    h1 !! attrs = Some (OMap kvs1) ∧
    kvs1 !! key = None ∧
    f ctx2 h1 = Some ((Nil, None), h1) ∧
    (f ctx1 ;; f ctx2) h = Some ((Nil, None), h1).
Proof.
  intros Hf Hget Hattrs Hget2.
  pose proof (delete_key_map target key f Hf ctx1 h h attrs kvs Hget Hattrs)
    as Hrun.
  set (h1 := <[attrs := OMap (delete key kvs)]> h) in *.
  assert (h1 !! attrs = Some (OMap (delete key kvs))) as Hattrs1.
  { apply list_lookup_insert_eq. by eapply lookup_lt_Some. }
  assert (f ctx2 h1 = Some ((Nil, None), h1)) as Hrun2.
  { eapply (delete_key_absent target key f Hf); [by apply Hget2|done|].
    apply lookup_delete_eq. }
  exists h1, (delete key kvs).
  split; [done|]. split; [done|]. split; [apply lookup_delete_eq|].
  split; [done|].
  by rewrite (bind_Some _ _ _ _ _ Hrun).
Qed.

(** ** The further properties at the example stores *)

Lemma gauge_to_sum_parameters_witness :
  (convertGaugeToSum "delta" false = (Some Examples.to_delta, None) ∧
   Examples.heap0 !! ottldatapoints.metric Examples.ctx0 =
     Some (OMetric Examples.gauge_metric) ∧
   otlp.Data Examples.gauge_metric = otlp.Metric_Gauge 1 ∧
   Examples.heap0 !! 1 =
     Some (OGauge {| otlp.GaugeDataPoints :=
                       [Examples.point 1; Examples.point 2;
                        Examples.point 3] |})) ∧
  ∃ h' s sum,
    Examples.to_delta Examples.ctx0 Examples.heap0 =
      Some ((Nil, None), h') ∧
    pmetric.Sum_ (ottldatapoints.metric Examples.ctx0) h' =
      Some (Some s, h') ∧
    h' !! s = Some (OSum sum) ∧
    otlp.IsMonotonic sum = false ∧
    otlp.SumDataPoints sum =
      [Examples.point 1; Examples.point 2; Examples.point 3] ∧
    ("delta" = "delta" →
     otlp.SumAggregationTemporality sum =
       pmetric.AggregationTemporalityDelta) ∧
    ("delta" = "cumulative" →
     otlp.SumAggregationTemporality sum =
       pmetric.AggregationTemporalityCumulative) ∧
    otlp.SumAggregationTemporality sum ≠
      pmetric.AggregationTemporalityUnspecified.
Proof.
  split; [repeat split|].
  apply (gauge_to_sum_parameters "delta" false Examples.to_delta
           Examples.ctx0 Examples.heap0 Examples.gauge_metric 1
           [Examples.point 1; Examples.point 2; Examples.point 3]);
    reflexivity.
Defined.

Lemma first_conversion_wins_witness :
  (convertGaugeToSum "cumulative" true =
     (Some Examples.to_cumulative, None) ∧
   convertGaugeToSum "delta" false = (Some Examples.to_delta, None) ∧
   ottldatapoints.metric Paths.ctx0_second =
     ottldatapoints.metric Examples.ctx0 ∧
   Examples.heap0 !! ottldatapoints.metric Examples.ctx0 =
     Some (OMetric Examples.gauge_metric) ∧
   otlp.Data Examples.gauge_metric = otlp.Metric_Gauge 1 ∧
   Examples.heap0 !! 1 =
     Some (OGauge {| otlp.GaugeDataPoints :=
                       [Examples.point 1; Examples.point 2;
                        Examples.point 3] |})) ∧
  ∃ h1,
    Examples.to_cumulative Examples.ctx0 Examples.heap0 =
      Some ((Nil, None), h1) ∧
    Examples.to_delta Paths.ctx0_second h1 = Some ((Nil, None), h1) ∧
    (Examples.to_cumulative Examples.ctx0 ;;
     Examples.to_delta Paths.ctx0_second) Examples.heap0 =
      Some ((Nil, None), h1).
Proof.
  split; [repeat split|].
  apply (first_conversion_wins "cumulative" "delta" true false
           Examples.to_cumulative Examples.to_delta Examples.ctx0
           Paths.ctx0_second
           Examples.heap0 Examples.gauge_metric 1
           {| otlp.GaugeDataPoints :=
                [Examples.point 1; Examples.point 2; Examples.point 3] |});
    reflexivity.
Defined.

Lemma conversions_do_not_interfere_witness :
  (convertGaugeToSum "cumulative" true =
     (Some Examples.to_cumulative, None) ∧
   ottldatapoints.metric Paths.ctxA ≠ ottldatapoints.metric Paths.ctxB ∧
   Paths.heap1 !! ottldatapoints.metric Paths.ctxA =
     Some (OMetric Examples.gauge_metric) ∧
   otlp.Data Examples.gauge_metric = otlp.Metric_Gauge 1 ∧
   Paths.heap1 !! 1 =
     Some (OGauge {| otlp.GaugeDataPoints :=
                       [Examples.point 1; Examples.point 2] |}) ∧
   Paths.heap1 !! ottldatapoints.metric Paths.ctxB =
     Some (OMetric Paths.metricB) ∧
   otlp.Data Paths.metricB = otlp.Metric_Gauge 3 ∧
   Paths.heap1 !! 3 =
     Some (OGauge {| otlp.GaugeDataPoints := [Examples.point 7] |})) ∧
  ∃ h2 sA sB,
    (Examples.to_cumulative Paths.ctxA ;; Examples.to_cumulative Paths.ctxB)
      Paths.heap1 = Some ((Nil, None), h2) ∧
    pmetric.Sum_ (ottldatapoints.metric Paths.ctxA) h2 =
      Some (Some sA, h2) ∧
    pmetric.points sA h2 =
      Some ([Examples.point 1; Examples.point 2], h2) ∧
    pmetric.Sum_ (ottldatapoints.metric Paths.ctxB) h2 =
      Some (Some sB, h2) ∧
    pmetric.points sB h2 = Some ([Examples.point 7], h2) ∧
    sA ≠ sB.
Proof.
  split; [repeat split; discriminate|].
  apply (conversions_do_not_interfere "cumulative" true
           Examples.to_cumulative Paths.ctxA Paths.ctxB Paths.heap1
           Examples.gauge_metric Paths.metricB
           1 3 [Examples.point 1; Examples.point 2] [Examples.point 7]);
    first [reflexivity|discriminate].
Defined.

Lemma convert_returns_only_nil_witness :
  (convertGaugeToSum "cumulative" true =
     (Some Examples.to_cumulative, None) ∧
   Examples.to_cumulative Examples.ctx0 Examples.heap0 =
     Some ((Nil, None),
           sum_store Examples.heap0 0 Examples.gauge_metric
             [Examples.point 1; Examples.point 2; Examples.point 3]
             pmetric.AggregationTemporalityCumulative true)) ∧
  ((Nil, None) = (Nil, None) :> result) ∧
  (length Examples.heap0 ≤
   length (sum_store Examples.heap0 0 Examples.gauge_metric
             [Examples.point 1; Examples.point 2; Examples.point 3]
             pmetric.AggregationTemporalityCumulative true))%nat ∧
  (length (sum_store Examples.heap0 0 Examples.gauge_metric
             [Examples.point 1; Examples.point 2; Examples.point 3]
             pmetric.AggregationTemporalityCumulative true) ≤
   S (length Examples.heap0))%nat ∧
  (∃ m m',
     Examples.heap0 !! ottldatapoints.metric Examples.ctx0 =
       Some (OMetric m) ∧
     sum_store Examples.heap0 0 Examples.gauge_metric
       [Examples.point 1; Examples.point 2; Examples.point 3]
       pmetric.AggregationTemporalityCumulative true
     !! ottldatapoints.metric Examples.ctx0 = Some (OMetric m') ∧
     otlp.Name m' = otlp.Name m ∧
     otlp.Description m' = otlp.Description m ∧
     otlp.Unit m' = otlp.Unit m) ∧
  (∀ l o, l ≠ ottldatapoints.metric Examples.ctx0 →
          Examples.heap0 !! l = Some o →
          sum_store Examples.heap0 0 Examples.gauge_metric
            [Examples.point 1; Examples.point 2; Examples.point 3]
            pmetric.AggregationTemporalityCumulative true !! l = Some o).
Proof.
  split; [repeat split|].
  apply (convert_returns_only_nil "cumulative" true Examples.to_cumulative
           Examples.ctx0 Examples.heap0 _ (Nil, None));
    reflexivity.
Defined.

Lemma delete_key_result_witness :
  (DeleteKey Examples.failing_getter "k" =
     (Some (Examples.delete_k Examples.failing_getter), None) ∧
   Examples.delete_k Examples.failing_getter tt Examples.heap0 =
     Some ((Nil, Some (Errorf "path not found")), Examples.heap0)) ∧
  Nil = Nil ∧
  ∃ val h1,
    ottl.Get Examples.failing_getter tt Examples.heap0 =
      Some ((val, Some (Errorf "path not found")), h1).
Proof.
  split; [repeat split|].
  apply (delete_key_result Examples.failing_getter "k"
           (Examples.delete_k Examples.failing_getter) tt
           Examples.heap0 Examples.heap0 Nil
           (Some (Errorf "path not found")));
    reflexivity.
Defined.

Lemma delete_key_only_removes_witness :
  (DeleteKey (Examples.map_getter 2) "k" =
     (Some (Examples.delete_k (Examples.map_getter 2)), None) ∧
   ottl.Get (Examples.map_getter 2) tt Examples.heap0 =
     Some ((IMap 2, None), Examples.heap0) ∧
   Examples.delete_k (Examples.map_getter 2) tt Examples.heap0 =
     Some ((Nil, None),
           <[2 := OMap (delete "k" Examples.attrs)]> Examples.heap0)) ∧
  length (<[2 := OMap (delete "k" Examples.attrs)]> Examples.heap0) =
    length Examples.heap0 ∧
  ∀ l,
    <[2 := OMap (delete "k" Examples.attrs)]> Examples.heap0 !! l =
      Examples.heap0 !! l ∨
    ∃ kvs kvs',
      Examples.heap0 !! l = Some (OMap kvs) ∧
      <[2 := OMap (delete "k" Examples.attrs)]> Examples.heap0 !! l =
        Some (OMap kvs') ∧
      kvs' ⊆ kvs ∧
      (∀ k, k ≠ "k" → kvs' !! k = kvs !! k).
Proof.
  split; [repeat split|].
  apply (delete_key_only_removes (Examples.map_getter 2) "k"
           (Examples.delete_k (Examples.map_getter 2)) tt
           Examples.heap0 Examples.heap0 _ (Nil, None) (IMap 2, None));
    reflexivity.
Defined.

Lemma delete_key_commute_witness :
  (DeleteKey (Examples.map_getter 2) "k" =
     (Some (Examples.delete_k (Examples.map_getter 2)), None) ∧
   DeleteKey (Examples.map_getter 2) "a" =
     (Some (Paths.delete_a (Examples.map_getter 2)), None) ∧
   Examples.heap0 !! 2 = Some (OMap Examples.attrs) ∧
   (∀ kvs',
      ottl.Get (Examples.map_getter 2) tt
        (<[2 := OMap kvs']> Examples.heap0) =
        Some ((IMap 2, None), <[2 := OMap kvs']> Examples.heap0))) ∧
  ∃ h2 kvs2,
    (Examples.delete_k (Examples.map_getter 2) tt ;;
     Paths.delete_a (Examples.map_getter 2) tt) Examples.heap0 =
      Some ((Nil, None), h2) ∧
    (Paths.delete_a (Examples.map_getter 2) tt ;;
     Examples.delete_k (Examples.map_getter 2) tt) Examples.heap0 =
      Some ((Nil, None), h2) ∧
    h2 !! 2 = Some (OMap kvs2) ∧
    kvs2 !! "k" = None ∧
    kvs2 !! "a" = None ∧
    (∀ k, k ≠ "k" → k ≠ "a" → kvs2 !! k = Examples.attrs !! k).
Proof.
  split; [repeat split|].
  apply (delete_key_commute (Examples.map_getter 2) "k" "a"
           (Examples.delete_k (Examples.map_getter 2))
           (Paths.delete_a (Examples.map_getter 2)) tt
           Examples.heap0 2 Examples.attrs);
    reflexivity.
Defined.


Lemma delete_key_shared_map_witness :
  (DeleteKey Paths.resource_attributes "service.name" =
     (Some Paths.delete_service_name, None) ∧
   ottl.Get Paths.resource_attributes Paths.ctxA Paths.heap1 =
     Some ((IMap 5, None), Paths.heap1) ∧
   Paths.heap1 !! 5 = Some (OMap Examples.resource_attrs) ∧
   (∀ h1,
      Paths.delete_service_name Paths.ctxA Paths.heap1 =
        Some ((Nil, None), h1) →
      ottl.Get Paths.resource_attributes Paths.ctxB h1 =
        Some ((IMap 5, None), h1))) ∧
  ∃ h1 kvs1,
    Paths.delete_service_name Paths.ctxA Paths.heap1 =
      Some ((Nil, None), h1) ∧
    h1 !! 5 = Some (OMap kvs1) ∧
    kvs1 !! "service.name" = None ∧
    Paths.delete_service_name Paths.ctxB h1 = Some ((Nil, None), h1) ∧
    (Paths.delete_service_name Paths.ctxA ;;
     Paths.delete_service_name Paths.ctxB) Paths.heap1 =
      Some ((Nil, None), h1).
Proof.
  assert (∀ h1,
            Paths.delete_service_name Paths.ctxA Paths.heap1 =
              Some ((Nil, None), h1) →
            ottl.Get Paths.resource_attributes Paths.ctxB h1 =
              Some ((IMap 5, None), h1)) as Hafter.
  { intros h1 Hrun.
    assert (Paths.delete_service_name Paths.ctxA Paths.heap1 =
            Some ((Nil, None),
                  <[5 := OMap (delete "service.name"
                                 Examples.resource_attrs)]> Paths.heap1))
      as Hdel by reflexivity.
    rewrite Hdel in Hrun. injection Hrun as <-. reflexivity. }
  split; [repeat split; exact Hafter|].
  apply (delete_key_shared_map Paths.resource_attributes "service.name"
           Paths.delete_service_name Paths.ctxA Paths.ctxB Paths.heap1 5
           Examples.resource_attrs);
    first [reflexivity|exact Hafter].
Defined.
